(** * Ingestion orchestration and knowledge-graph query fan-out

    A shallow embedding of

    - [app/modules/parsing/graph_construction/parsing_service.py]
      (class [ParsingService]: [change_dir], [parse_directory],
      [create_neo4j_indices], [analyze_directory]) and
    - [app/modules/intelligence/tools/kg_based_tools/ask_knowledge_graph_queries_tool.py]
      (class [KnowledgeGraphQueryTool]: [ask_multiple_knowledge_graph_queries],
      [ask_knowledge_graph_query], [run]).

    Both files are glue code around fallible collaborators (graph builder,
    graph store, inference service, project store, file system).  The
    collaborators are modelled by an environment of oracles that answer each
    call with a value or a Python exception, possibly depending on everything
    that happened before; the code itself is written in a small state and
    exception monad that records every collaborator call, with its outcome,
    in a trace. *)

From Stdlib Require Import ZArith String Ascii List Bool Lia DecimalString.
From Stdlib Require Import Floats.SpecFloat.
From stdpp Require Import base option list gmap strings.

Import ListNotations.
Local Open Scope string_scope.
Local Open Scope list_scope.
Local Open Scope Z_scope.

(** ** Python values and strings *)

(** The values a raw match record or a project row can hold.  Floats are
    kept as IEEE-754 specifications so that both zeros are falsy. *)
Inductive PyVal : Type :=
| PyNone
| PyBool (b : bool)
| PyInt (z : Z)
| PyFloat (f : spec_float)
| PyStr (s : string).

(** Python truth value testing ([bool(v)]). *)
Definition truthy (v : PyVal) : bool :=
  match v with
  | PyNone => false
  | PyBool b => b
  | PyInt z => negb (z =? 0)
  | PyFloat (S754_zero _) => false
  | PyFloat _ => true
  | PyStr s => negb (String.eqb s "")
  end.

(** [a or b]: [a] when it is truthy, [b] otherwise. *)
Definition py_or (a b : PyVal) : PyVal := if truthy a then a else b.

(** [d.get(k)]: the stored value, [None] when the key is absent. *)
Definition dict_get (d : gmap string PyVal) (k : string) : PyVal :=
  default PyNone (d !! k).

(** [str(n)] for an [int]. *)
Definition str_int (n : Z) : string := NilZero.string_of_int (Z.to_int n).

(** [s.lower()] on the ASCII range. *)
Definition lower_ascii (c : ascii) : ascii :=
  let n := nat_of_ascii c in
  if ((65 <=? n)%nat && (n <=? 90)%nat)%bool then ascii_of_nat (n + 32) else c.

Fixpoint lower (s : string) : string :=
  match s with
  | EmptyString => EmptyString
  | String c s' => String (lower_ascii c) (lower s')
  end.

(** [s.startswith(p)]. *)
Definition startswith (s p : string) : bool := String.prefix p s.

(** [x in xs] on a list of strings. *)
Definition str_in (x : string) (xs : list string) : bool :=
  existsb (String.eqb x) xs.

(** ** Exceptions *)

(** Every exception in the model is an instance of [Exception]; signals that
    derive from [BaseException] only are outside the model.
    [ParsingFailedError] derives from [ParsingServiceError]. *)
Inductive exn : Type :=
| ParsingServiceError (msg : string)
| ParsingFailedError (msg : string)
| HTTPException (status_code : Z) (detail : string)
| ValueError (msg : string)
| TypeError (msg : string)
| KeyError (key : string)
| UnboundLocalError (msg : string)
| ValidationError (msg : string)
| OtherException (cls : string) (msg : string).

(** [isinstance(e, ParsingServiceError)]. *)
Definition is_ParsingServiceError (e : exn) : bool :=
  match e with
  | ParsingServiceError _ | ParsingFailedError _ => true
  | _ => false
  end.

(** [str(e)]. *)
Definition str_exn (e : exn) : string :=
  match e with
  | ParsingServiceError m | ParsingFailedError m | ValueError m
  | TypeError m | UnboundLocalError m | ValidationError m
  | OtherException _ m => m
  | KeyError k => "'" +:+ k +:+ "'"
  | HTTPException c d => str_int c +:+ ": " +:+ d
  end.

Inductive Outcome (A : Type) : Type :=
| Returns (a : A)
| Raises (e : exn).
Arguments Returns {A} a.
Arguments Raises {A} e.

Definition returned {A} (o : Outcome A) : bool :=
  match o with Returns _ => true | Raises _ => false end.

(** ** Data exchanged with the collaborators *)

(** Modelled from the spec: the [ProjectStatusEnum] of
    [app/modules/projects/projects_schema.py], with the three states the
    orchestrator writes. *)
Inductive ProjectStatusEnum : Type := ERROR | PARSED | READY.

#[global] Instance ProjectStatusEnum_eq_dec : EqDecision ProjectStatusEnum.
Proof. solve_decision. Defined.

(** Graph nodes and relationships are opaque to the orchestrator, which only
    looks at [len(n)]. *)
Definition GraphNode : Type := string.
Definition GraphEdge : Type := string * string.

(** Modelled from the spec: the [ParsingRequest] of [parsing_schema.py], a
    repository reference and a branch name. *)
Record ParsingRequest : Type := {
  repo_ref : string;
  branch_name : string
}.

(** What [clone_or_copy_repository] hands back: a local [git.Repo] or a
    remote repository object that knows its language breakdown. *)
Inductive RepoHandle : Type :=
| GitRepo (working_dir : string)
| RemoteRepo (full_name : string).

Definition isinstance_Repo (r : RepoHandle) : bool :=
  match r with GitRepo _ => true | RemoteRepo _ => false end.

(** The value [parse_directory] returns. *)
Record ParseResult : Type := {
  res_message : string;
  res_id : Z
}.

(** [QueryRequest] of the query tool. *)
Record QueryRequest : Type := {
  qr_node_ids : list string;
  qr_project_id : string;
  qr_query : string
}.

(** Modelled from the spec: the [QueryResponse] of
    [app/modules/parsing/knowledge_graph/inference_schema.py], a record of
    the six fields its constructor is given. *)
Record QueryResponse : Type := {
  node_id : PyVal;
  docstring : PyVal;
  file_path : PyVal;
  start_line : PyVal;
  end_line : PyVal;
  similarity : PyVal
}.

(** What [run] of the query tool hands to its caller: the per-question
    results, or the dictionary [{"error": ...}]. *)
Inductive RunValue : Type :=
| Results (rs : list (list QueryResponse))
| ErrorDict (error : string).

(** ** Collaborator calls, traces and the environment *)

(** One constructor per collaborator call made by the two files, with the
    arguments of the call and what the call answered. *)
Inductive Event : Type :=
| EvGetNeo4jConfig (o : Outcome (gmap string string))
| EvCodeGraphService (uri username password : string) (o : Outcome unit)
| EvCleanupGraph (pid : Z) (o : Outcome unit)
| EvCloneOrCopyRepository (rd : ParsingRequest) (uid : string)
    (o : Outcome (RepoHandle * string * option string))
| EvSetupProjectDirectory (repo : RepoHandle) (branch : string)
    (auth : option string) (uid : string) (pid : Z) (o : Outcome (string * Z))
| EvDetectRepoLanguage (dir : string) (o : Outcome string)
| EvGetLanguages (repo : RepoHandle) (o : Outcome (list (string * Z)))
| EvNeo4jManager (pid : Z) (uid : string) (o : Outcome unit)
| EvCreateEntityIdIndex (o : Outcome unit)
| EvCreateNodeIdIndex (o : Outcome unit)
| EvGraphConstructor (uid : string) (o : Outcome unit)
| EvBuildGraph (dir : string) (o : Outcome (list GraphNode * list GraphEdge))
| EvCreateNodes (n : list GraphNode) (o : Outcome unit)
| EvCreateEdges (r : list GraphEdge) (o : Outcome unit)
| EvUpdateProjectStatus (pid : Z) (st : ProjectStatusEnum) (o : Outcome unit)
| EvSendEvent (uid : string) (pid : Z) (status : string) (o : Outcome unit)
| EvRunInference (pid : Z) (o : Outcome unit)
| EvLogGraphStats (pid : Z) (o : Outcome unit)
| EvGraphManagerClose (o : Outcome unit)
| EvCreateAndStoreGraph (dir : string) (pid : Z) (uid : string) (o : Outcome unit)
| EvServiceClose (o : Outcome unit)
| EvPathExists (dir : string) (b : bool)
| EvRmtree (dir : string)
| EvGetProjectRepoDetails (ref uid : string)
    (o : Outcome (option (gmap string PyVal)))
| EvInferenceService (o : Outcome unit)
| EvQueryVectorIndex (pid question : string) (nodes : list string)
    (o : Outcome (list (gmap string PyVal))).

Definition Trace : Type := list Event.

(** The collaborators.  Every oracle sees the trace so far, so a collaborator
    may answer the same call differently the second time. *)
Record Env : Type := {
  env_get_neo4j_config : Trace -> Outcome (gmap string string);
  env_CodeGraphService : Trace -> string -> string -> string -> Outcome unit;
  env_cleanup_graph : Trace -> Z -> Outcome unit;
  env_clone_or_copy_repository :
    Trace -> ParsingRequest -> string -> Outcome (RepoHandle * string * option string);
  env_setup_project_directory :
    Trace -> RepoHandle -> string -> option string -> string -> Z -> Outcome (string * Z);
  env_detect_repo_language : Trace -> string -> Outcome string;
  env_get_languages : Trace -> RepoHandle -> Outcome (list (string * Z));
  env_Neo4jManager : Trace -> Z -> string -> Outcome unit;
  env_create_entityId_index : Trace -> Outcome unit;
  env_create_node_id_index : Trace -> Outcome unit;
  env_GraphConstructor : Trace -> string -> Outcome unit;
  env_build_graph : Trace -> string -> Outcome (list GraphNode * list GraphEdge);
  env_create_nodes : Trace -> list GraphNode -> Outcome unit;
  env_create_edges : Trace -> list GraphEdge -> Outcome unit;
  env_update_project_status : Trace -> Z -> ProjectStatusEnum -> Outcome unit;
  env_send_event : Trace -> string -> Z -> string -> Outcome unit;
  env_run_inference : Trace -> Z -> Outcome unit;
  env_log_graph_stats : Trace -> Z -> Outcome unit;
  env_graph_manager_close : Trace -> Outcome unit;
  env_create_and_store_graph : Trace -> string -> Z -> string -> Outcome unit;
  env_service_close : Trace -> Outcome unit;
  env_path_exists : Trace -> string -> bool;
  env_PROJECT_PATH : option string;
  env_format_exception : exn -> string;
  env_get_project_repo_details_from_db :
    Trace -> string -> string -> Outcome (option (gmap string PyVal));
  env_InferenceService : Trace -> Outcome unit;
  env_query_vector_index :
    Trace -> string -> string -> list string -> Outcome (list (gmap string PyVal))
}.

(** ** The monad of the embedding

    A computation runs in a frame of local variables [L] and on the trace
    so far; it extends the trace and returns or raises. *)
Definition M (L A : Type) : Type := L -> Trace -> L * Trace * Outcome A.

Definition ret {L A} (a : A) : M L A := fun l tr => (l, tr, Returns a).

Definition raise {L A} (e : exn) : M L A := fun l tr => (l, tr, Raises e).

Definition bind {L A B} (m : M L A) (k : A -> M L B) : M L B :=
  fun l tr =>
    match m l tr with
    | (l1, tr1, Returns a) => k a l1 tr1
    | (l1, tr1, Raises e) => (l1, tr1, Raises e)
    end.

Notation "'do' x <- m ; k" := (bind m (fun x => k))
  (at level 10, x name, m at level 100, k at level 200, only parsing).
Notation "'do' ' p <- m ; k" := (bind m (fun x => match x with p => k end))
  (at level 10, p pattern, m at level 100, k at level 200, only parsing).

(** Reading and writing the local variables of the frame. *)
Definition get_locals {L} : M L L := fun l tr => (l, tr, Returns l).
Definition set_locals {L} (l' : L) : M L unit := fun _ tr => (l', tr, Returns tt).

(** A collaborator call: ask the oracle, record call and answer. *)
Definition external {L A} (oracle : Trace -> Outcome A) (ev : Outcome A -> Event)
  : M L A :=
  fun l tr =>
    match oracle tr with
    | Returns a => (l, tr ++ [ev (Returns a)], Returns a)
    | Raises e => (l, tr ++ [ev (Raises e)], Raises e)
    end.

(** A collaborator call that cannot raise. *)
Definition observe {L A} (oracle : Trace -> A) (ev : A -> Event) : M L A :=
  fun l tr => let a := oracle tr in (l, tr ++ [ev a], Returns a).

(** [try: body  except Exception as e: handler e]. *)
Definition try_except {L A} (body : M L A) (handler : exn -> M L A) : M L A :=
  fun l tr =>
    match body l tr with
    | (l1, tr1, Returns a) => (l1, tr1, Returns a)
    | (l1, tr1, Raises e) => handler e l1 tr1
    end.

(** [try: body  finally: fin].  An exception of [fin] replaces whatever
    [body] did; otherwise the outcome of [body] stands. *)
Definition try_finally {L A} (body : M L A) (fin : M L unit) : M L A :=
  fun l tr =>
    match body l tr with
    | (l1, tr1, o) =>
        match fin l1 tr1 with
        | (l2, tr2, Returns _) => (l2, tr2, o)
        | (l2, tr2, Raises e) => (l2, tr2, Raises e)
        end
    end.

(** A method call: the callee runs in a frame of its own. *)
Definition call {L L' A} (frame : L') (callee : M L' A) : M L A :=
  fun l tr => match callee frame tr with (_, tr1, o) => (l, tr1, o) end.

(** [d[k]] on a dictionary of strings. *)
Definition getitem {L} (d : gmap string string) (k : string) : M L string :=
  match d !! k with
  | Some v => ret v
  | None => raise (KeyError k)
  end.

(** Running a computation from an empty frame and an empty trace. *)
Definition exec {A} (m : M unit A) : Trace * Outcome A :=
  match m tt [] with (_, tr, o) => (tr, o) end.

(** [await asyncio.gather] over a list of tasks, for coroutines that never suspend (the
    bodies below contain no [await]): the event loop runs every task to its
    end in the order given, also after one of them has raised, and [gather]
    then raises the exception of the first task that failed, or returns the
    results in the order of the tasks. *)
Fixpoint gather {L A} (tasks : list (M L A)) : M L (list A) :=
  match tasks with
  | [] => ret []
  | task :: tasks' =>
      fun l tr =>
        match task l tr with
        | (l1, tr1, o) =>
            match gather tasks' l1 tr1 with
            | (l2, tr2, os) =>
                (l2, tr2,
                 match o, os with
                 | Raises e, _ => Raises e
                 | Returns _, Raises e => Raises e
                 | Returns a, Returns rest => Returns (a :: rest)
                 end)
            end
        end
  end.

(** ** ask_knowledge_graph_queries_tool.py *)

Module KnowledgeGraphQueryTool.
Section Tool.

Variable env : Env.
(** [self.user_id]. *)
Variable user_id : string.

(** The element of the list comprehension in [process_query]. *)
Definition to_QueryResponse (result : gmap string PyVal) : QueryResponse :=
  {| node_id := dict_get result "node_id";
     docstring := dict_get result "docstring";
     file_path := dict_get result "file_path";
     start_line := py_or (dict_get result "start_line") (PyInt 0);
     end_line := py_or (dict_get result "end_line") (PyInt 0);
     similarity := py_or (dict_get result "similarity") (PyInt 0) |}.

Definition process_query (query_request : QueryRequest)
  : M unit (list QueryResponse) :=
  do results <- external
    (fun tr => env_query_vector_index env tr (qr_project_id query_request)
                 (qr_query query_request) (qr_node_ids query_request))
    (EvQueryVectorIndex (qr_project_id query_request)
       (qr_query query_request) (qr_node_ids query_request));
  ret (map to_QueryResponse results).

Definition ask_multiple_knowledge_graph_queries (queries : list QueryRequest)
  : M unit (list (list QueryResponse)) :=
  do _ <- external (env_InferenceService env) EvInferenceService;
  let tasks := map process_query queries in
  gather tasks.

(** [QueryRequest(query=..., project_id=..., node_ids=...)]: the field
    [project_id] is declared [str], and validation rejects another type. *)
Definition QueryRequest_init (query : string) (project_id : PyVal)
    (node_ids : list string) : M unit QueryRequest :=
  match project_id with
  | PyStr s =>
      ret {| qr_node_ids := node_ids; qr_project_id := s; qr_query := query |}
  | _ => raise (ValidationError "project_id: Input should be a valid string")
  end.

(** The list comprehension building [query_list]: it stops at the first
    request that fails to validate. *)
Fixpoint build_query_list (queries : list string) (project_id : PyVal)
    (node_ids : list string) : M unit (list QueryRequest) :=
  match queries with
  | [] => ret []
  | query :: queries' =>
      do q <- QueryRequest_init query project_id node_ids;
      do qs <- build_query_list queries' project_id node_ids;
      ret (q :: qs)
  end.

(** [bool(project)] for the row handed back by the project service. *)
Definition project_truthy (project : option (gmap string PyVal)) : bool :=
  match project with
  | None => false
  | Some d => negb (bool_decide (d = ∅))
  end.

Definition ask_knowledge_graph_query (queries : list string)
    (project_id : string) (node_ids : list string)
  : M unit (list (list QueryResponse)) :=
  do project <- external
    (fun tr => env_get_project_repo_details_from_db env tr project_id user_id)
    (EvGetProjectRepoDetails project_id user_id);
  if negb (project_truthy project) then
    raise (ValueError ("Project with ID '" +:+ project_id +:+
                       "' not found in database for user '" +:+ user_id +:+ "'"))
  else
    do project_id <- match project ≫= (.!! "id") with
                     | Some v => ret v
                     | None => raise (KeyError "id")
                     end;
    do query_list <- build_query_list queries project_id node_ids;
    ask_multiple_knowledge_graph_queries query_list.

(** [run_tool] drives the same coroutine to completion on an event loop
    of its own. *)
Definition run_tool (queries : list string) (project_id : string)
    (node_ids : list string) : M unit (list (list QueryResponse)) :=
  ask_knowledge_graph_query queries project_id node_ids.

Definition run (queries : list string) (repo_id : string)
    (node_ids : list string) : M unit RunValue :=
  try_except
    (do results <- ask_knowledge_graph_query queries repo_id node_ids;
     ret (Results results))
    (fun e => ret (ErrorDict ("An unexpected error occurred: " +:+ str_exn e))).

End Tool.
End KnowledgeGraphQueryTool.

(** ** parsing_service.py *)

Definition newline : string := String (ascii_of_nat 10) EmptyString.

(** [max(languages, key=languages.get)] over a dictionary in insertion
    order: the first key with the largest value. *)
Fixpoint max_by_value (best : string * Z) (rest : list (string * Z)) : string :=
  match rest with
  | [] => fst best
  | kv :: rest' =>
      if snd best <? snd kv then max_by_value kv rest' else max_by_value best rest'
  end.

Definition max_key {L} (languages : list (string * Z)) : M L string :=
  match languages with
  | [] => raise (ValueError "max() arg is an empty sequence")
  | kv :: rest => ret (max_by_value kv rest)
  end.

(** A call that cannot fail and answers nothing. *)
Definition record {L} (ev : Event) : M L unit :=
  fun l tr => (l, tr ++ [ev], Returns tt).

Module ParsingService.

(** The local variables of [parse_directory] that its handlers read. *)
Record ParseFrame : Type := {
  v_extracted_dir : option string;
  v_project_id : Z
}.

(** The local variable of [analyze_directory] that is bound inside a [try]
    and read in its [finally]: whether [service] is bound. *)
Record AnalyzeFrame : Type := {
  v_service : bool
}.

Section Service.

Variable env : Env.

Definition update_project_status {L} (project_id : Z) (st : ProjectStatusEnum)
  : M L unit :=
  external (fun tr => env_update_project_status env tr project_id st)
           (EvUpdateProjectStatus project_id st).

(** [PostHogClient().send_event(user_id, "project_status_event",
    {"project_id": project_id, "status": status})]. *)
Definition send_event {L} (user_id : string) (project_id : Z) (status : string)
  : M L unit :=
  external (fun tr => env_send_event env tr user_id project_id status)
           (EvSendEvent user_id project_id status).

Definition run_inference {L} (project_id : Z) : M L unit :=
  external (fun tr => env_run_inference env tr project_id)
           (EvRunInference project_id).

Definition log_graph_stats {L} (project_id : Z) : M L unit :=
  external (fun tr => env_log_graph_stats env tr project_id)
           (EvLogGraphStats project_id).

Definition build_graph {L} (extracted_dir : string)
  : M L (list GraphNode * list GraphEdge) :=
  external (fun tr => env_build_graph env tr extracted_dir)
           (EvBuildGraph extracted_dir).

(** [CodeGraphService(neo4j_config["uri"], neo4j_config["username"],
    neo4j_config["password"], db)]. *)
Definition CodeGraphService {L} (neo4j_config : gmap string string) : M L unit :=
  do uri <- getitem neo4j_config "uri";
  do username <- getitem neo4j_config "username";
  do password <- getitem neo4j_config "password";
  external (fun tr => env_CodeGraphService env tr uri username password)
           (EvCodeGraphService uri username password).

Definition create_neo4j_indices {L} : M L unit :=
  do _ <- external (env_create_entityId_index env) EvCreateEntityIdIndex;
  external (env_create_node_id_index env) EvCreateNodeIdIndex.

Definition analyze_directory (extracted_dir : string) (project_id : Z)
    (user_id : string) (language : string) : M AnalyzeFrame unit :=
  if str_in language ["python"; "javascript"; "typescript"] then
    do _ <- external (fun tr => env_Neo4jManager env tr project_id user_id)
                     (EvNeo4jManager project_id user_id);
    do _ <- create_neo4j_indices;
    try_finally
      (try_except
         (do _ <- external (fun tr => env_GraphConstructor env tr user_id)
                           (EvGraphConstructor user_id);
          do nr <- build_graph extracted_dir;
          do nr <- (if (length (fst nr) =? 0)%nat then
                      do nr <- build_graph extracted_dir;
                      if (length (fst nr) =? 0)%nat then
                        raise (ParsingFailedError
                                 ("Project: " +:+ str_int project_id +:+
                                  " Failed to build graph"))
                      else ret nr
                    else ret nr);
          do _ <- external (fun tr => env_create_nodes env tr (fst nr))
                           (EvCreateNodes (fst nr));
          do _ <- external (fun tr => env_create_edges env tr (snd nr))
                           (EvCreateEdges (snd nr));
          do _ <- update_project_status project_id PARSED;
          do _ <- send_event user_id project_id "Parsed";
          do _ <- run_inference project_id;
          do _ <- log_graph_stats project_id;
          do _ <- update_project_status project_id READY;
          send_event user_id project_id "Ready")
         (fun e =>
            do _ <- update_project_status project_id ERROR;
            send_event user_id project_id "Error"))
      (external (env_graph_manager_close env) EvGraphManagerClose)
  else if negb (String.eqb language "other") then
    try_finally
      (do neo4j_config <- external (env_get_neo4j_config env) EvGetNeo4jConfig;
       do _ <- CodeGraphService neo4j_config;
       do _ <- set_locals {| v_service := true |};
       do _ <- external
                 (fun tr => env_create_and_store_graph env tr extracted_dir
                              project_id user_id)
                 (EvCreateAndStoreGraph extracted_dir project_id user_id);
       do _ <- update_project_status project_id PARSED;
       do _ <- run_inference project_id;
       do _ <- log_graph_stats project_id;
       do _ <- update_project_status project_id READY;
       log_graph_stats project_id)
      (do frame <- get_locals;
       do _ <- (if v_service frame then
                  external (env_service_close env) EvServiceClose
                else
                  raise (UnboundLocalError
                           "cannot access local variable 'service' where it is not associated with a value"));
       log_graph_stats project_id)
  else
    do _ <- update_project_status project_id ERROR;
    do _ <- log_graph_stats project_id;
    raise (ParsingFailedError
             "Repository doesn't consist of a language currently supported.").

(** Lines 62-76: the optional cleanup of the stale graph. *)
Definition cleanup_step (cleanup_graph : bool) : M ParseFrame unit :=
  if cleanup_graph then
    do neo4j_config <- external (env_get_neo4j_config env) EvGetNeo4jConfig;
    try_except
      (do _ <- CodeGraphService neo4j_config;
       do frame <- get_locals;
       external (fun tr => env_cleanup_graph env tr (v_project_id frame))
                (EvCleanupGraph (v_project_id frame)))
      (fun e => raise (HTTPException 500 "Internal server error"))
  else ret tt.

(** Lines 85-89: the dominant language. *)
Definition detect_language {L} (repo : RepoHandle) (extracted_dir : string)
  : M L string :=
  if isinstance_Repo repo then
    external (fun tr => env_detect_repo_language env tr extracted_dir)
             (EvDetectRepoLanguage extracted_dir)
  else
    do languages <- external (fun tr => env_get_languages env tr repo)
                             (EvGetLanguages repo);
    do language <- max_key languages;
    ret (lower language).

(** Lines 113-119: the [finally] clause of [parse_directory]. *)
Definition remove_extracted_dir : M ParseFrame unit :=
  do frame <- get_locals;
  match v_extracted_dir frame with
  | None => ret tt
  | Some extracted_dir =>
      if negb (String.eqb extracted_dir "") then
        do there <- observe (fun tr => env_path_exists env tr extracted_dir)
                            (EvPathExists extracted_dir);
        if (there : bool) then
          match env_PROJECT_PATH env with
          | None =>
              raise (TypeError
                       "startswith first arg must be str or a tuple of str, not NoneType")
          | Some root =>
              if startswith extracted_dir root then
                record (EvRmtree extracted_dir)
              else ret tt
          end
        else ret tt
      else ret tt
  end.

Definition parse_directory (repo_details : ParsingRequest)
    (user_id user_email : string) (project_id : Z) (cleanup_graph : bool)
  : M unit ParseResult :=
  call {| v_extracted_dir := None; v_project_id := project_id |}
    (try_finally
       (try_except
          (do _ <- cleanup_step cleanup_graph;
           do cloned <- external
               (fun tr => env_clone_or_copy_repository env tr repo_details user_id)
               (EvCloneOrCopyRepository repo_details user_id);
           let '(repo, owner, auth) := cloned in
           do frame <- get_locals;
           do made <- external
               (fun tr => env_setup_project_directory env tr repo
                            (branch_name repo_details) auth user_id
                            (v_project_id frame))
               (EvSetupProjectDirectory repo (branch_name repo_details) auth
                  user_id (v_project_id frame));
           let '(extracted_dir, project_id) := made in
           do _ <- set_locals {| v_extracted_dir := Some extracted_dir;
                                 v_project_id := project_id |};
           do language <- detect_language repo extracted_dir;
           do _ <- call {| v_service := false |}
                     (analyze_directory extracted_dir project_id user_id language);
           let message := "The project has been parsed successfully" in
           ret {| res_message := message; res_id := project_id |})
          (fun e =>
             do frame <- get_locals;
             if is_ParsingServiceError e then
               let message := str_int (v_project_id frame) +:+
                              " Failed during parsing: " +:+ str_exn e in
               do _ <- update_project_status (v_project_id frame) ERROR;
               raise (HTTPException 500 message)
             else
               do _ <- update_project_status (v_project_id frame) ERROR;
               let tb_str := env_format_exception env e in
               raise (HTTPException 500
                        (str_exn e +:+ newline +:+ "Traceback: " +:+ tb_str))))
       remove_extracted_dir).

End Service.
End ParsingService.

(** ** Observations on traces *)

(** The answers of [GraphConstructor.build_graph], in call order. *)
Definition build_outcomes (tr : Trace)
  : list (Outcome (list GraphNode * list GraphEdge)) :=
  flat_map (fun ev => match ev with EvBuildGraph _ o => [o] | _ => [] end) tr.

(** The bulk inserts into the graph store. *)
Definition is_insert (ev : Event) : bool :=
  match ev with
  | EvCreateNodes _ _ | EvCreateEdges _ _ => true
  | _ => false
  end.

Definition insert_events (tr : Trace) : Trace := List.filter is_insert tr.

(** Calls to the graph builder. *)
Definition is_graph_builder_call (ev : Event) : bool :=
  match ev with
  | EvGraphConstructor _ _ | EvBuildGraph _ _ | EvCreateAndStoreGraph _ _ _ _ => true
  | _ => false
  end.

(** Calls to the graph store, through either of its two clients. *)
Definition is_graph_store_call (ev : Event) : bool :=
  match ev with
  | EvCodeGraphService _ _ _ _ | EvCleanupGraph _ _
  | EvNeo4jManager _ _ _ | EvCreateEntityIdIndex _ | EvCreateNodeIdIndex _
  | EvCreateNodes _ _ | EvCreateEdges _ _ | EvGraphManagerClose _
  | EvCreateAndStoreGraph _ _ _ _ | EvServiceClose _ => true
  | _ => false
  end.

(** The status writes that the project store accepted, in order. *)
Definition status_writes (tr : Trace) : list (Z * ProjectStatusEnum) :=
  flat_map (fun ev => match ev with
                      | EvUpdateProjectStatus pid st (Returns _) => [(pid, st)]
                      | _ => []
                      end) tr.

(** The status the project store holds for [pid] after the trace: the last
    accepted write. *)
Definition status_of (tr : Trace) (pid : Z) : option ProjectStatusEnum :=
  fold_left (fun cur w => if fst w =? pid then Some (snd w) else cur)
            (status_writes tr) None.

(** What [setup_project_directory] answered: the working directory and the
    project id the rest of the run uses. *)
Definition setup_results (tr : Trace) : list (string * Z) :=
  flat_map (fun ev => match ev with
                      | EvSetupProjectDirectory _ _ _ _ _ (Returns dp) => [dp]
                      | _ => []
                      end) tr.

Definition setup_result (tr : Trace) : option (string * Z) :=
  head (setup_results tr).

(** The language the run dispatches on. *)
Definition detections (tr : Trace) : list string :=
  flat_map (fun ev => match ev with
                      | EvDetectRepoLanguage _ (Returns language) => [language]
                      | EvGetLanguages _ (Returns (kv :: rest)) =>
                          [lower (max_by_value kv rest)]
                      | _ => []
                      end) tr.

Definition detected_language (tr : Trace) : option string :=
  head (detections tr).

(** The directories handed to [shutil.rmtree]. *)
Definition removed_dirs (tr : Trace) : list string :=
  flat_map (fun ev => match ev with EvRmtree d => [d] | _ => [] end) tr.

(** The answers of [os.path.exists]. *)
Definition path_checks (tr : Trace) : list (string * bool) :=
  flat_map (fun ev => match ev with EvPathExists d b => [(d, b)] | _ => [] end) tr.

(** Whether the call behind an event returned. *)
Definition event_returned (ev : Event) : bool :=
  match ev with
  | EvGetNeo4jConfig o => returned o
  | EvCodeGraphService _ _ _ o | EvCleanupGraph _ o => returned o
  | EvCloneOrCopyRepository _ _ o => returned o
  | EvSetupProjectDirectory _ _ _ _ _ o => returned o
  | EvDetectRepoLanguage _ o => returned o
  | EvGetLanguages _ o => returned o
  | EvNeo4jManager _ _ o | EvCreateEntityIdIndex o | EvCreateNodeIdIndex o => returned o
  | EvGraphConstructor _ o => returned o
  | EvBuildGraph _ o => returned o
  | EvCreateNodes _ o | EvCreateEdges _ o => returned o
  | EvUpdateProjectStatus _ _ o | EvSendEvent _ _ _ o => returned o
  | EvRunInference _ o | EvLogGraphStats _ o => returned o
  | EvGraphManagerClose o | EvCreateAndStoreGraph _ _ _ o | EvServiceClose o => returned o
  | EvPathExists _ _ | EvRmtree _ => true
  | EvGetProjectRepoDetails _ _ o => returned o
  | EvInferenceService o => returned o
  | EvQueryVectorIndex _ _ _ o => returned o
  end.

(** Every call of the trace that belongs to the class [which] returned. *)
Definition all_returned (which : Event -> bool) (tr : Trace) : bool :=
  forallb (fun ev => implb (which ev) (event_returned ev)) tr.

(** The graph-native branch opening its store connection (lines 140-141). *)
Definition is_graph_manager_setup (ev : Event) : bool :=
  match ev with
  | EvNeo4jManager _ _ _ | EvCreateEntityIdIndex _ | EvCreateNodeIdIndex _ => true
  | _ => false
  end.

(** What the error handler and the [finally] of the graph-native branch
    call (lines 178-187). *)
Definition is_graph_native_recovery (ev : Event) : bool :=
  match ev with
  | EvUpdateProjectStatus _ ERROR _ | EvSendEvent _ _ "Error" _
  | EvGraphManagerClose _ => true
  | _ => false
  end.

(** What the [finally] of the generic branch calls (lines 213-215). *)
Definition is_generic_finalizer (ev : Event) : bool :=
  match ev with
  | EvServiceClose _ | EvLogGraphStats _ _ => true
  | _ => false
  end.

(** What the unsupported-language branch calls before it raises. *)
Definition is_unsupported_report (ev : Event) : bool :=
  match ev with
  | EvUpdateProjectStatus _ ERROR _ | EvLogGraphStats _ _ => true
  | _ => false
  end.

Definition is_graph_native (language : string) : bool :=
  str_in language ["python"; "javascript"; "typescript"].

(** Running [analyze_directory] on its own, from an empty trace. *)
Definition run_analyze_directory (env : Env) (extracted_dir : string)
    (project_id : Z) (user_id language : string) : Trace * Outcome unit :=
  exec (call {| ParsingService.v_service := false |}
          (ParsingService.analyze_directory env extracted_dir project_id
             user_id language)).

(** [READY] is written only for a project whose [PARSED] write was accepted
    earlier in the trace; [parsed] lists the projects already parsed. *)
Fixpoint ready_after_parsed (parsed : list Z) (tr : Trace) : bool :=
  match tr with
  | [] => true
  | EvUpdateProjectStatus pid PARSED (Returns _) :: tr' =>
      ready_after_parsed (pid :: parsed) tr'
  | EvUpdateProjectStatus pid READY _ :: tr' =>
      existsb (Z.eqb pid) parsed && ready_after_parsed parsed tr'
  | _ :: tr' => ready_after_parsed parsed tr'
  end.

Definition is_ready_write (ev : Event) : bool :=
  match ev with
  | EvUpdateProjectStatus _ READY _ => true
  | _ => false
  end.

(** How often the builder is invoked, and what is inserted, as a function of
    what the builder answered. *)
Definition build_discipline (tr : Trace) : Prop :=
  (length (build_outcomes tr) <= 2)%nat /\
  (forall n r,
      head (build_outcomes tr) = Some (Returns (n, r)) -> n <> [] ->
      length (build_outcomes tr) = 1%nat /\
      ((exists e, insert_events tr = [EvCreateNodes n (Raises e)]) \/
       (exists o, insert_events tr =
                    [EvCreateNodes n (Returns tt); EvCreateEdges r o]))) /\
  (forall r,
      head (build_outcomes tr) = Some (Returns ([], r)) ->
      length (build_outcomes tr) = 2%nat).

(** Path containment as the spec words it: [dir] is the root itself or lies
    below it in the directory tree. *)
Definition with_trailing_sep (root : string) : string :=
  if String.eqb root "" then "/"
  else if String.eqb (String.substring (String.length root - 1) 1 root) "/" then root
  else root +:+ "/".

Definition lies_under (root dir : string) : bool :=
  String.eqb dir root || startswith dir (with_trailing_sep root).

(** What one run of [analyze_directory] adds to the trace, [evs], and how it
    ends, [out]. *)
Definition analysis_facts (project_id : Z) (language : string) (evs : Trace)
    (out : Outcome unit) : Prop :=
  (setup_results evs = [] /\ detections evs = [] /\ removed_dirs evs = [] /\
   path_checks evs = []) /\
  build_discipline evs /\
  ready_after_parsed [] evs = true /\
  (exists sts, status_writes evs = map (pair project_id) sts /\
               (last sts = Some READY -> sts = [PARSED; READY])) /\
  (is_graph_native language = true ->
   all_returned is_graph_manager_setup evs = true ->
   all_returned is_graph_native_recovery evs = true ->
   out = Returns tt) /\
  (is_graph_native language = false ->
   List.filter is_graph_builder_call evs =
   List.filter (fun ev => match ev with EvCreateAndStoreGraph _ _ _ _ => true
                                   | _ => false end) evs) /\
  (language = "other" ->
   List.filter is_graph_builder_call evs = [] /\
   List.filter is_graph_store_call evs = [] /\
   (exists e, out = Raises e) /\
   (all_returned is_unsupported_report evs = true ->
    out = Raises (ParsingFailedError
                    "Repository doesn't consist of a language currently supported.") /\
    status_writes evs = [(project_id, ERROR)])).

(** ** Observations on the query fan-out *)

Definition is_resolution (ev : Event) : bool :=
  match ev with EvGetProjectRepoDetails _ _ _ => true | _ => false end.

Definition is_dispatch (ev : Event) : bool :=
  match ev with EvQueryVectorIndex _ _ _ _ => true | _ => false end.

(** The message of the not-found failure. *)
Definition not_found_message (project_id user_id : string) : string :=
  "Project with ID '" +:+ project_id +:+
  "' not found in database for user '" +:+ user_id +:+ "'".

(** A raw match in which the engine left out all three numeric fields and
    the two text fields. *)
Definition bare_match : gmap string PyVal :=
  list_to_map [("node_id", PyStr "n7")].

(** ** Messages of [parse_directory] *)

Definition success_message : string := "The project has been parsed successfully".

Definition unsupported_message : string :=
  "Repository doesn't consist of a language currently supported.".

(** ** Sample collaborators

    Concrete environments on which the theorems below are exercised. *)

Definition sample_config : gmap string string :=
  list_to_map [("uri", "bolt://localhost:7687"); ("username", "neo4j");
               ("password", "secret")].

Definition sample_match : gmap string PyVal :=
  list_to_map [("node_id", PyStr "n1"); ("docstring", PyStr "Parses a file");
               ("file_path", PyStr "src/a.py"); ("start_line", PyInt 3);
               ("similarity", PyFloat (S754_finite false 3 (-2)))].

Definition sample_project : gmap string PyVal :=
  list_to_map [("id", PyStr "p-1"); ("repo_name", PyStr "acme/tool")].

(** Collaborators that all answer, except as the parameters say: the
    detected language, the working directory handed out by
    [setup_project_directory], the project-storage root, the graph builder,
    the inference service and the project lookup. *)
Definition sample_env (language extracted_dir : string) (root : option string)
    (build : Trace -> Outcome (list GraphNode * list GraphEdge))
    (inference : Outcome unit)
    (project : Outcome (option (gmap string PyVal))) : Env :=
  {| env_get_neo4j_config := fun _ => Returns sample_config;
     env_CodeGraphService := fun _ _ _ _ => Returns tt;
     env_cleanup_graph := fun _ _ => Returns tt;
     env_clone_or_copy_repository :=
       fun _ _ _ => Returns (GitRepo "/tmp/clone", "acme", None);
     env_setup_project_directory :=
       fun _ _ _ _ _ pid => Returns (extracted_dir, pid);
     env_detect_repo_language := fun _ _ => Returns language;
     env_get_languages := fun _ _ => Returns [(language, 10)];
     env_Neo4jManager := fun _ _ _ => Returns tt;
     env_create_entityId_index := fun _ => Returns tt;
     env_create_node_id_index := fun _ => Returns tt;
     env_GraphConstructor := fun _ _ => Returns tt;
     env_build_graph := fun tr _ => build tr;
     env_create_nodes := fun _ _ => Returns tt;
     env_create_edges := fun _ _ => Returns tt;
     env_update_project_status := fun _ _ _ => Returns tt;
     env_send_event := fun _ _ _ _ => Returns tt;
     env_run_inference := fun _ _ => inference;
     env_log_graph_stats := fun _ _ => Returns tt;
     env_graph_manager_close := fun _ => Returns tt;
     env_create_and_store_graph := fun _ _ _ _ => Returns tt;
     env_service_close := fun _ => Returns tt;
     env_path_exists := fun _ _ => true;
     env_PROJECT_PATH := root;
     env_format_exception := fun e => "Traceback (most recent call last): ...";
     env_get_project_repo_details_from_db := fun _ _ _ => project;
     env_InferenceService := fun _ => Returns tt;
     env_query_vector_index := fun _ _ _ _ => Returns [sample_match] |}.

Definition sample_request : ParsingRequest :=
  {| repo_ref := "acme/tool"; branch_name := "main" |}.

(** A builder that finds two nodes and one edge. *)
Definition build_some : Trace -> Outcome (list GraphNode * list GraphEdge) :=
  fun _ => Returns (["a.py"; "a.py:f"], [("a.py", "a.py:f")]).

(** A builder that finds nothing, every time. *)
Definition build_nothing : Trace -> Outcome (list GraphNode * list GraphEdge) :=
  fun _ => Returns ([], []).

(** A builder that finds nothing on its first pass and the graph on its
    second. *)
Definition build_on_retry : Trace -> Outcome (list GraphNode * list GraphEdge) :=
  fun tr => match build_outcomes tr with
            | [] => Returns ([], [])
            | _ => Returns (["a.py"; "a.py:f"], [("a.py", "a.py:f")])
            end.

Definition engine_down : exn := OtherException "InferenceServiceError" "model unavailable".

(** ** Sample runs *)

Definition root_dir : string := "/srv/projects".
Definition work_dir : string := "/srv/projects/acme-tool-main".

(** Python project, graph found at once, enrichment succeeds. *)
Definition env_python : Env :=
  sample_env "python" work_dir (Some root_dir) build_some (Returns tt)
             (Returns (Some sample_project)).

(** Python project, the builder finds nothing on either pass. *)
Definition env_empty_graph : Env :=
  sample_env "python" work_dir (Some root_dir) build_nothing (Returns tt)
             (Returns (Some sample_project)).

(** Python project, the builder finds the graph on its second pass. *)
Definition env_retry : Env :=
  sample_env "python" work_dir (Some root_dir) build_on_retry (Returns tt)
             (Returns (Some sample_project)).

(** Python project, the inference service fails. *)
Definition env_python_engine_down : Env :=
  sample_env "python" work_dir (Some root_dir) build_some (Raises engine_down)
             (Returns (Some sample_project)).

(** Java project (generic branch), the inference service fails. *)
Definition env_java_engine_down : Env :=
  sample_env "java" work_dir (Some root_dir) build_some (Raises engine_down)
             (Returns (Some sample_project)).

(** A repository whose language is classified as [other]. *)
Definition env_other : Env :=
  sample_env "other" work_dir (Some root_dir) build_some (Returns tt)
             (Returns (Some sample_project)).

(** The working directory is a sibling of the project-storage root whose
    name starts with the name of the root. *)
Definition sibling_dir : string := "/srv/projects-old/repo".

Definition env_sibling_dir : Env :=
  sample_env "python" sibling_dir (Some root_dir) build_some (Returns tt)
             (Returns (Some sample_project)).


(** ** Further observations on traces *)

Definition is_manager_close (ev : Event) : bool :=
  match ev with EvGraphManagerClose _ => true | _ => false end.

Definition is_service_close (ev : Event) : bool :=
  match ev with EvServiceClose _ => true | _ => false end.

(** The generic branch: a language that is neither graph-native nor
    [other]. *)
Definition is_generic_language (language : string) : bool :=
  negb (is_graph_native language) && negb (String.eqb language "other").

Definition unbound_service_message : string :=
  "cannot access local variable 'service' where it is not associated with a value".

(** The answers of [run_inference]. *)
Definition inference_outcomes (tr : Trace) : list (Outcome unit) :=
  flat_map (fun ev => match ev with EvRunInference _ o => [o] | _ => [] end) tr.

Definition is_create_and_store (ev : Event) : bool :=
  match ev with EvCreateAndStoreGraph _ _ _ _ => true | _ => false end.

(** The calls [analyze_directory] can make. *)
Definition is_analysis_event (ev : Event) : bool :=
  match ev with
  | EvGetNeo4jConfig _ | EvCodeGraphService _ _ _ _
  | EvNeo4jManager _ _ _ | EvCreateEntityIdIndex _ | EvCreateNodeIdIndex _
  | EvGraphConstructor _ _ | EvBuildGraph _ _
  | EvCreateNodes _ _ | EvCreateEdges _ _
  | EvUpdateProjectStatus _ _ _ | EvSendEvent _ _ _ _
  | EvRunInference _ _ | EvLogGraphStats _ _
  | EvGraphManagerClose _ | EvCreateAndStoreGraph _ _ _ _ | EvServiceClose _ => true
  | _ => false
  end.

Definition every_call (ev : Event) : bool := true.

(** More of what one run of [analyze_directory] adds to the trace. *)
Definition analysis_more (project_id : Z) (language : string) (evs : Trace)
    (out : Outcome unit) : Prop :=
  forallb is_analysis_event evs = true /\
  (is_generic_language language = true ->
   build_outcomes evs = [] /\
   (length (List.filter is_create_and_store evs) <= 1)%nat /\
   (out = Returns tt ->
    status_writes evs = [(project_id, PARSED); (project_id, READY)]) /\
   (forall e, inference_outcomes evs = [Raises e] ->
              all_returned is_generic_finalizer evs = true -> out = Raises e)) /\
  (is_graph_native language = true ->
   all_returned every_call evs = true ->
   out = Returns tt /\
   ((exists n r,
       last (build_outcomes evs) = Some (Returns (n, r)) /\ n <> [] /\
       insert_events evs =
         [EvCreateNodes n (Returns tt); EvCreateEdges r (Returns tt)] /\
       inference_outcomes evs = [Returns tt] /\
       status_writes evs = [(project_id, PARSED); (project_id, READY)]) \/
    (exists r0 r1,
       build_outcomes evs = [Returns ([], r0); Returns ([], r1)] /\
       insert_events evs = [] /\ inference_outcomes evs = [] /\
       status_writes evs = [(project_id, ERROR)]))) /\
  (is_generic_language language = false ->
   List.filter is_service_close evs = []).

Definition is_error_write (ev : Event) : bool :=
  match ev with EvUpdateProjectStatus _ ERROR _ => true | _ => false end.

Definition is_cleanup (ev : Event) : bool :=
  match ev with EvCleanupGraph _ _ => true | _ => false end.

Definition is_cleanup_done (ev : Event) : bool :=
  match ev with EvCleanupGraph _ (Returns _) => true | _ => false end.

(** Cloning, directory setup and language detection. *)
Definition is_acquisition (ev : Event) : bool :=
  match ev with
  | EvCloneOrCopyRepository _ _ _ | EvSetupProjectDirectory _ _ _ _ _ _
  | EvDetectRepoLanguage _ _ | EvGetLanguages _ _ => true
  | _ => false
  end.

(** The value of the local variable [project_id] when a run ends: what
    [setup_project_directory] returned, the argument of the call before. *)
Definition effective_project_id (tr : Trace) (project_id : Z) : Z :=
  match setup_result tr with
  | Some (_, p) => p
  | None => project_id
  end.

Definition startswith_none_message : string :=
  "startswith first arg must be str or a tuple of str, not NoneType".

(** The [detail] of the [HTTPException] that [parse_directory] raises for
    an exception [e] (lines 97-111). *)
Definition surfaced_detail (env : Env) (project_id : Z) (e : exn) : string :=
  if is_ParsingServiceError e then
    str_int project_id +:+ " Failed during parsing: " +:+ str_exn e
  else
    str_exn e +:+ newline +:+ "Traceback: " +:+ env_format_exception env e.

(** ** Further observations on the query fan-out *)

(** What the engine was asked: project id, question and node-id filter of
    every [query_vector_index] call, in call order. *)
Definition dispatches (tr : Trace) : list (string * string * list string) :=
  flat_map (fun ev => match ev with
                      | EvQueryVectorIndex p q n _ => [(p, q, n)]
                      | _ => []
                      end) tr.

(** What the engine answered, in call order. *)
Definition dispatch_outcomes (tr : Trace)
  : list (Outcome (list (gmap string PyVal))) :=
  flat_map (fun ev => match ev with
                      | EvQueryVectorIndex _ _ _ o => [o]
                      | _ => []
                      end) tr.

(** The matches of the answers that returned. *)
Definition answers (os : list (Outcome (list (gmap string PyVal))))
  : list (list (gmap string PyVal)) :=
  flat_map (fun o => match o with Returns ms => [ms] | Raises _ => [] end) os.

(** The request built for one question of a batch. *)
Definition request_of (p : string) (node_ids : list string) (q : string)
  : QueryRequest :=
  {| qr_node_ids := node_ids; qr_project_id := p; qr_query := q |}.

(** What [gather] makes of the outcomes of the questions of a batch: the
    exception of the first question that failed, or the responses of every
    question in the order of the questions. *)
Fixpoint batch_outcome (os : list (Outcome (list (gmap string PyVal))))
  : Outcome (list (list QueryResponse)) :=
  match os with
  | [] => Returns []
  | o :: os' =>
      match o, batch_outcome os' with
      | Raises e, _ => Raises e
      | Returns _, Raises e => Raises e
      | Returns ms, Returns rest =>
          Returns (map KnowledgeGraphQueryTool.to_QueryResponse ms :: rest)
      end
  end.

(** ** change_dir *)

Module ChangeDir.
Section Cwd.

(** Which paths are directories of the file system. *)
Variable is_dir : string -> bool.

(** The frame of these computations is the current working directory of
    the process.  [os.getcwd()]: *)
Definition getcwd : M string string := get_locals.

(** [os.chdir(path)]. *)
Definition chdir (path : string) : M string unit :=
  if is_dir path then set_locals path
  else raise (OtherException "FileNotFoundError"
                ("[Errno 2] No such file or directory: '" +:+ path +:+ "'")).

(** [with self.change_dir(path): body], lines 41-48: the generator runs up
    to its [yield], the body of the [with] runs in its place, and the
    [finally] clause runs when the body is left, by return or by
    exception. *)
Definition change_dir {A} (path : string) (body : M string A) : M string A :=
  do old_dir <- getcwd;
  do _ <- chdir path;
  try_finally body (chdir old_dir).

End Cwd.
End ChangeDir.

(** ** Variations of an environment *)

(** The same collaborators, with another configuration provider. *)
Definition with_get_neo4j_config
    (answer : Trace -> Outcome (gmap string string))
    (env : Env) : Env :=
  {| env_get_neo4j_config := answer;
     env_CodeGraphService := env_CodeGraphService env;
     env_cleanup_graph := env_cleanup_graph env;
     env_clone_or_copy_repository := env_clone_or_copy_repository env;
     env_setup_project_directory := env_setup_project_directory env;
     env_detect_repo_language := env_detect_repo_language env;
     env_get_languages := env_get_languages env;
     env_Neo4jManager := env_Neo4jManager env;
     env_create_entityId_index := env_create_entityId_index env;
     env_create_node_id_index := env_create_node_id_index env;
     env_GraphConstructor := env_GraphConstructor env;
     env_build_graph := env_build_graph env;
     env_create_nodes := env_create_nodes env;
     env_create_edges := env_create_edges env;
     env_update_project_status := env_update_project_status env;
     env_send_event := env_send_event env;
     env_run_inference := env_run_inference env;
     env_log_graph_stats := env_log_graph_stats env;
     env_graph_manager_close := env_graph_manager_close env;
     env_create_and_store_graph := env_create_and_store_graph env;
     env_service_close := env_service_close env;
     env_path_exists := env_path_exists env;
     env_PROJECT_PATH := env_PROJECT_PATH env;
     env_format_exception := env_format_exception env;
     env_get_project_repo_details_from_db :=
       env_get_project_repo_details_from_db env;
     env_InferenceService := env_InferenceService env;
     env_query_vector_index := env_query_vector_index env |}.

(** The same collaborators, with another [cleanup_graph]. *)
Definition with_cleanup_graph
    (answer : Trace -> Z -> Outcome unit)
    (env : Env) : Env :=
  {| env_get_neo4j_config := env_get_neo4j_config env;
     env_CodeGraphService := env_CodeGraphService env;
     env_cleanup_graph := answer;
     env_clone_or_copy_repository := env_clone_or_copy_repository env;
     env_setup_project_directory := env_setup_project_directory env;
     env_detect_repo_language := env_detect_repo_language env;
     env_get_languages := env_get_languages env;
     env_Neo4jManager := env_Neo4jManager env;
     env_create_entityId_index := env_create_entityId_index env;
     env_create_node_id_index := env_create_node_id_index env;
     env_GraphConstructor := env_GraphConstructor env;
     env_build_graph := env_build_graph env;
     env_create_nodes := env_create_nodes env;
     env_create_edges := env_create_edges env;
     env_update_project_status := env_update_project_status env;
     env_send_event := env_send_event env;
     env_run_inference := env_run_inference env;
     env_log_graph_stats := env_log_graph_stats env;
     env_graph_manager_close := env_graph_manager_close env;
     env_create_and_store_graph := env_create_and_store_graph env;
     env_service_close := env_service_close env;
     env_path_exists := env_path_exists env;
     env_PROJECT_PATH := env_PROJECT_PATH env;
     env_format_exception := env_format_exception env;
     env_get_project_repo_details_from_db :=
       env_get_project_repo_details_from_db env;
     env_InferenceService := env_InferenceService env;
     env_query_vector_index := env_query_vector_index env |}.

(** The same collaborators, with another [create_node_id_index]. *)
Definition with_create_node_id_index
    (answer : Trace -> Outcome unit)
    (env : Env) : Env :=
  {| env_get_neo4j_config := env_get_neo4j_config env;
     env_CodeGraphService := env_CodeGraphService env;
     env_cleanup_graph := env_cleanup_graph env;
     env_clone_or_copy_repository := env_clone_or_copy_repository env;
     env_setup_project_directory := env_setup_project_directory env;
     env_detect_repo_language := env_detect_repo_language env;
     env_get_languages := env_get_languages env;
     env_Neo4jManager := env_Neo4jManager env;
     env_create_entityId_index := env_create_entityId_index env;
     env_create_node_id_index := answer;
     env_GraphConstructor := env_GraphConstructor env;
     env_build_graph := env_build_graph env;
     env_create_nodes := env_create_nodes env;
     env_create_edges := env_create_edges env;
     env_update_project_status := env_update_project_status env;
     env_send_event := env_send_event env;
     env_run_inference := env_run_inference env;
     env_log_graph_stats := env_log_graph_stats env;
     env_graph_manager_close := env_graph_manager_close env;
     env_create_and_store_graph := env_create_and_store_graph env;
     env_service_close := env_service_close env;
     env_path_exists := env_path_exists env;
     env_PROJECT_PATH := env_PROJECT_PATH env;
     env_format_exception := env_format_exception env;
     env_get_project_repo_details_from_db :=
       env_get_project_repo_details_from_db env;
     env_InferenceService := env_InferenceService env;
     env_query_vector_index := env_query_vector_index env |}.

(** The same collaborators, with another telemetry client. *)
Definition with_send_event
    (answer : Trace -> string -> Z -> string -> Outcome unit)
    (env : Env) : Env :=
  {| env_get_neo4j_config := env_get_neo4j_config env;
     env_CodeGraphService := env_CodeGraphService env;
     env_cleanup_graph := env_cleanup_graph env;
     env_clone_or_copy_repository := env_clone_or_copy_repository env;
     env_setup_project_directory := env_setup_project_directory env;
     env_detect_repo_language := env_detect_repo_language env;
     env_get_languages := env_get_languages env;
     env_Neo4jManager := env_Neo4jManager env;
     env_create_entityId_index := env_create_entityId_index env;
     env_create_node_id_index := env_create_node_id_index env;
     env_GraphConstructor := env_GraphConstructor env;
     env_build_graph := env_build_graph env;
     env_create_nodes := env_create_nodes env;
     env_create_edges := env_create_edges env;
     env_update_project_status := env_update_project_status env;
     env_send_event := answer;
     env_run_inference := env_run_inference env;
     env_log_graph_stats := env_log_graph_stats env;
     env_graph_manager_close := env_graph_manager_close env;
     env_create_and_store_graph := env_create_and_store_graph env;
     env_service_close := env_service_close env;
     env_path_exists := env_path_exists env;
     env_PROJECT_PATH := env_PROJECT_PATH env;
     env_format_exception := env_format_exception env;
     env_get_project_repo_details_from_db :=
       env_get_project_repo_details_from_db env;
     env_InferenceService := env_InferenceService env;
     env_query_vector_index := env_query_vector_index env |}.

(** The same collaborators, with another vector index. *)
Definition with_query_vector_index
    (answer : Trace -> string -> string -> list string -> Outcome (list (gmap string PyVal)))
    (env : Env) : Env :=
  {| env_get_neo4j_config := env_get_neo4j_config env;
     env_CodeGraphService := env_CodeGraphService env;
     env_cleanup_graph := env_cleanup_graph env;
     env_clone_or_copy_repository := env_clone_or_copy_repository env;
     env_setup_project_directory := env_setup_project_directory env;
     env_detect_repo_language := env_detect_repo_language env;
     env_get_languages := env_get_languages env;
     env_Neo4jManager := env_Neo4jManager env;
     env_create_entityId_index := env_create_entityId_index env;
     env_create_node_id_index := env_create_node_id_index env;
     env_GraphConstructor := env_GraphConstructor env;
     env_build_graph := env_build_graph env;
     env_create_nodes := env_create_nodes env;
     env_create_edges := env_create_edges env;
     env_update_project_status := env_update_project_status env;
     env_send_event := env_send_event env;
     env_run_inference := env_run_inference env;
     env_log_graph_stats := env_log_graph_stats env;
     env_graph_manager_close := env_graph_manager_close env;
     env_create_and_store_graph := env_create_and_store_graph env;
     env_service_close := env_service_close env;
     env_path_exists := env_path_exists env;
     env_PROJECT_PATH := env_PROJECT_PATH env;
     env_format_exception := env_format_exception env;
     env_get_project_repo_details_from_db :=
       env_get_project_repo_details_from_db env;
     env_InferenceService := env_InferenceService env;
     env_query_vector_index := answer |}.

(** The same collaborators, with another language breakdown. *)
Definition with_get_languages
    (answer : Trace -> RepoHandle -> Outcome (list (string * Z)))
    (env : Env) : Env :=
  {| env_get_neo4j_config := env_get_neo4j_config env;
     env_CodeGraphService := env_CodeGraphService env;
     env_cleanup_graph := env_cleanup_graph env;
     env_clone_or_copy_repository := env_clone_or_copy_repository env;
     env_setup_project_directory := env_setup_project_directory env;
     env_detect_repo_language := env_detect_repo_language env;
     env_get_languages := answer;
     env_Neo4jManager := env_Neo4jManager env;
     env_create_entityId_index := env_create_entityId_index env;
     env_create_node_id_index := env_create_node_id_index env;
     env_GraphConstructor := env_GraphConstructor env;
     env_build_graph := env_build_graph env;
     env_create_nodes := env_create_nodes env;
     env_create_edges := env_create_edges env;
     env_update_project_status := env_update_project_status env;
     env_send_event := env_send_event env;
     env_run_inference := env_run_inference env;
     env_log_graph_stats := env_log_graph_stats env;
     env_graph_manager_close := env_graph_manager_close env;
     env_create_and_store_graph := env_create_and_store_graph env;
     env_service_close := env_service_close env;
     env_path_exists := env_path_exists env;
     env_PROJECT_PATH := env_PROJECT_PATH env;
     env_format_exception := env_format_exception env;
     env_get_project_repo_details_from_db :=
       env_get_project_repo_details_from_db env;
     env_InferenceService := env_InferenceService env;
     env_query_vector_index := env_query_vector_index env |}.

(** The same collaborators, with another repository acquirer. *)
Definition with_clone_or_copy_repository
    (answer : Trace -> ParsingRequest -> string -> Outcome (RepoHandle * string * option string))
    (env : Env) : Env :=
  {| env_get_neo4j_config := env_get_neo4j_config env;
     env_CodeGraphService := env_CodeGraphService env;
     env_cleanup_graph := env_cleanup_graph env;
     env_clone_or_copy_repository := answer;
     env_setup_project_directory := env_setup_project_directory env;
     env_detect_repo_language := env_detect_repo_language env;
     env_get_languages := env_get_languages env;
     env_Neo4jManager := env_Neo4jManager env;
     env_create_entityId_index := env_create_entityId_index env;
     env_create_node_id_index := env_create_node_id_index env;
     env_GraphConstructor := env_GraphConstructor env;
     env_build_graph := env_build_graph env;
     env_create_nodes := env_create_nodes env;
     env_create_edges := env_create_edges env;
     env_update_project_status := env_update_project_status env;
     env_send_event := env_send_event env;
     env_run_inference := env_run_inference env;
     env_log_graph_stats := env_log_graph_stats env;
     env_graph_manager_close := env_graph_manager_close env;
     env_create_and_store_graph := env_create_and_store_graph env;
     env_service_close := env_service_close env;
     env_path_exists := env_path_exists env;
     env_PROJECT_PATH := env_PROJECT_PATH env;
     env_format_exception := env_format_exception env;
     env_get_project_repo_details_from_db :=
       env_get_project_repo_details_from_db env;
     env_InferenceService := env_InferenceService env;
     env_query_vector_index := env_query_vector_index env |}.

(** The same collaborators, with another constructor of the inference
    service. *)
Definition with_InferenceService
    (answer : Trace -> Outcome unit)
    (env : Env) : Env :=
  {| env_get_neo4j_config := env_get_neo4j_config env;
     env_CodeGraphService := env_CodeGraphService env;
     env_cleanup_graph := env_cleanup_graph env;
     env_clone_or_copy_repository := env_clone_or_copy_repository env;
     env_setup_project_directory := env_setup_project_directory env;
     env_detect_repo_language := env_detect_repo_language env;
     env_get_languages := env_get_languages env;
     env_Neo4jManager := env_Neo4jManager env;
     env_create_entityId_index := env_create_entityId_index env;
     env_create_node_id_index := env_create_node_id_index env;
     env_GraphConstructor := env_GraphConstructor env;
     env_build_graph := env_build_graph env;
     env_create_nodes := env_create_nodes env;
     env_create_edges := env_create_edges env;
     env_update_project_status := env_update_project_status env;
     env_send_event := env_send_event env;
     env_run_inference := env_run_inference env;
     env_log_graph_stats := env_log_graph_stats env;
     env_graph_manager_close := env_graph_manager_close env;
     env_create_and_store_graph := env_create_and_store_graph env;
     env_service_close := env_service_close env;
     env_path_exists := env_path_exists env;
     env_PROJECT_PATH := env_PROJECT_PATH env;
     env_format_exception := env_format_exception env;
     env_get_project_repo_details_from_db :=
       env_get_project_repo_details_from_db env;
     env_InferenceService := answer;
     env_query_vector_index := env_query_vector_index env |}.

(** ** Further sample runs *)

Definition store_down : exn :=
  OtherException "ServiceUnavailable" "graph store unreachable".

Definition telemetry_down : exn :=
  OtherException "ConnectionError" "telemetry endpoint unreachable".

(** Java project (generic branch), every collaborator answers. *)
Definition env_java : Env :=
  sample_env "java" work_dir (Some root_dir) build_some (Returns tt)
             (Returns (Some sample_project)).

(** Python project, the second index cannot be created. *)
Definition env_index_fails : Env :=
  with_create_node_id_index (fun _ => Raises store_down) env_python.

(** Java project, the store configuration cannot be read. *)
Definition env_no_config : Env :=
  with_get_neo4j_config (fun _ => Raises (KeyError "NEO4J_URI")) env_java.

(** Python project, the stale graph cannot be deleted. *)
Definition env_cleanup_fails : Env :=
  with_cleanup_graph (fun _ _ => Raises store_down) env_python.

(** The repository cannot be cloned. *)
Definition env_clone_fails : Env :=
  with_clone_or_copy_repository
    (fun _ _ _ => Raises (HTTPException 404 "Repository not found")) env_python.

(** Python project, no project-storage root configured. *)
Definition env_no_root : Env :=
  sample_env "python" work_dir None build_some (Returns tt)
             (Returns (Some sample_project)).

(** Python project, the telemetry client fails on the event with the given
    status and on no other. *)
Definition env_telemetry_down_at (status : string) : Env :=
  with_send_event
    (fun _ _ _ s => if String.eqb s status then Raises telemetry_down
                    else Returns tt)
    env_python.

(** Python project, the inference service fails and so does the telemetry
    client when the error handler reports the failure. *)
Definition env_error_event_fails : Env :=
  with_send_event
    (fun _ _ _ s => if String.eqb s "Error" then Raises telemetry_down
                    else Returns tt)
    env_python_engine_down.

(** The engine fails on the question [q2] and answers every other. *)
Definition env_second_question_fails : Env :=
  with_query_vector_index
    (fun _ _ q _ => if String.eqb q "q2" then Raises engine_down
                    else Returns [sample_match])
    env_python.

(** A remote repository, mostly Python, with Go as large. *)
Definition env_remote : Env :=
  with_get_languages
    (fun _ _ => Returns [("HTML", 10); ("Python", 40); ("Go", 40)]) env_python.

(** The project service hands back a row that has no [id]. *)
Definition env_no_id : Env :=
  sample_env "python" work_dir (Some root_dir) build_some (Returns tt)
             (Returns (Some (list_to_map [("repo_name", PyStr "acme/tool")]))).

(** The inference service of the query tool cannot be constructed. *)
Definition env_no_inference_service : Env :=
  with_InferenceService (fun _ => Raises engine_down) env_python.


(** ** Symbolic execution

    The code has no loop outside the query fan-out, so a run is settled by
    following it call by call: [norm_analysis] unfolds the monad and
    [step_with] splits on the collaborator answer (or test) the run is
    waiting for. *)

Import ParsingService.

Ltac stuck_on t :=
  lazymatch t with
  | match ?s with Returns _ => _ | Raises _ => _ end => stuck_on s
  | match ?s with (_, _) => _ end => stuck_on s
  | if ?s then _ else _ => stuck_on s
  | match ?s with Some _ => _ | None => _ end => stuck_on s
  | match ?s with [] => _ | _ :: _ => _ end => stuck_on s
  | match ?s with GitRepo _ => _ | RemoteRepo _ => _ end => stuck_on s
  | (match ?s with Returns _ => _ | Raises _ => _ end) _ _ => stuck_on s
  | (match ?s with (_, _) => _ end) _ _ => stuck_on s
  | (if ?s then _ else _) _ _ => stuck_on s
  | (match ?s with Some _ => _ | None => _ end) _ _ => stuck_on s
  | (match ?s with [] => _ | _ :: _ => _ end) _ _ => stuck_on s
  | (match ?s with GitRepo _ => _ | RemoteRepo _ => _ end) _ _ => stuck_on s
  | _ => t
  end.

Ltac norm_analysis :=
  cbv beta iota zeta delta
    [analyze_directory CodeGraphService getitem try_finally try_except
     create_neo4j_indices build_graph update_project_status send_event
     run_inference log_graph_stats get_locals set_locals
     bind external ret raise v_service negb].

Ltac step_with norm :=
  lazymatch goal with
  | |- ?G =>
      let s := stuck_on G in
      lazymatch s with
      | G => fail "the run is over"
      | _ => first [ is_var s; destruct s | destruct s eqn:? ]
      end
  end; norm.

Ltac tidy := rewrite <- ?app_assoc; cbn [app].

Ltac split_node_lists :=
  repeat match goal with
         | H : context [length (fst ?a)] |- _ =>
             destruct a as [[|? ?] ?]; cbn in H; try discriminate H
         end.

Ltac kill_units := repeat match goal with u : unit |- _ => destruct u end.

Ltac pick_statuses :=
  first [ exists [] ; split; [reflexivity|]
        | exists [ERROR] ; split; [reflexivity|]
        | exists [PARSED] ; split; [reflexivity|]
        | exists [PARSED; ERROR] ; split; [reflexivity|]
        | exists [PARSED; READY] ; split; [reflexivity|]
        | exists [PARSED; READY; ERROR] ; split; [reflexivity|] ];
  cbn; intros; congruence.

Ltac close_analysis_path :=
  tidy; eexists; (split; [reflexivity|]);
  split_node_lists; kill_units; cbn [fst snd];
  unfold analysis_facts;
  split; [ repeat split; reflexivity | ];
  split; [ unfold build_discipline; cbn;
           split; [ lia | ];
           split; intros; simplify_eq; try congruence;
           try (split; [ reflexivity | ]);
           first [ reflexivity
                 | left; eexists; reflexivity
                 | right; eexists; reflexivity ] | ];
  split; [ cbn; rewrite ?Z.eqb_refl; reflexivity | ];
  split; [ pick_statuses | ];
  split; [ unfold is_graph_native; intros Hn H1 H2;
           first [ congruence | reflexivity | cbn in H1, H2; discriminate ] | ];
  split; [ unfold is_graph_native; intros; first [ congruence | reflexivity ] | ];
  intros ->;
  first [ discriminate
        | repeat split; try reflexivity; try (eexists; reflexivity);
          cbn; intros; first [ discriminate | split; reflexivity ] ].

(** Every run of [analyze_directory], from any frame and after any trace,
    extends the trace by events that satisfy [analysis_facts]. *)
Lemma analyze_directory_paths env d pid uid lang fr tr0 :
  match analyze_directory env d pid uid lang fr tr0 with
  | (_, tr', out) => exists evs, tr' = tr0 ++ evs /\ analysis_facts pid lang evs out
  end.
Proof.
  norm_analysis.
  repeat step_with norm_analysis.
  all: close_analysis_path.
Qed.

Lemma analyze_directory_spec env d pid uid lang fr tr0 :
  exists fr' evs out,
    analyze_directory env d pid uid lang fr tr0 = (fr', tr0 ++ evs, out) /\
    analysis_facts pid lang evs out.
Proof.
  pose proof (analyze_directory_paths env d pid uid lang fr tr0) as H.
  destruct (analyze_directory env d pid uid lang fr tr0) as [[fr' tr'] out].
  destruct H as (evs & -> & H). eauto.
Qed.

(** ** The query fan-out *)

Module KnowledgeGraphQueryToolProofs.
Import KnowledgeGraphQueryTool.

Section Fanout.

Variable env : Env.
Variable user_id : string.

Lemma process_query_trace (q : QueryRequest) l tr :
  exists ev o, process_query env q l tr = (l, tr ++ [ev], o) /\ is_dispatch ev = true.
Proof.
  unfold process_query, bind, external, ret.
  destruct (env_query_vector_index env tr _ _ _); eauto.
Qed.

(** The fan-out adds one dispatch per request and nothing else. *)
Lemma gather_process_query_trace (qs : list QueryRequest) :
  forall l tr,
  exists evs o,
    gather (map (process_query env) qs) l tr = (l, tr ++ evs, o) /\
    Forall (fun ev => is_dispatch ev = true) evs /\
    length evs = length qs.
Proof.
  induction qs as [|q qs IH]; intros l tr; cbn [map gather].
  - exists [], (Returns []). rewrite app_nil_r. unfold ret. auto.
  - destruct (process_query_trace q l tr) as (ev & o & -> & Hev).
    destruct (IH l (tr ++ [ev])) as (evs & os & -> & Hevs & Hlen).
    exists (ev :: evs). eexists. rewrite <- app_assoc. cbn [app].
    split; [reflexivity|]. split; [constructor; assumption|].
    cbn [length]. congruence.
Qed.

Lemma build_query_list_silent (queries : list string) pidv nodes :
  forall l tr, exists o, build_query_list queries pidv nodes l tr = (l, tr, o).
Proof.
  induction queries as [|q qs IH]; intros l tr; cbn [build_query_list].
  - unfold ret. eauto.
  - unfold bind, QueryRequest_init.
    destruct pidv; unfold raise, ret; eauto.
    destruct (IH l tr) as ([qs'|e] & ->); eauto.
Qed.

(** All that [ask_knowledge_graph_query] does after the resolution of the
    project is free of further resolutions. *)
Lemma ask_knowledge_graph_query_trace queries project_id node_ids :
  match exec (ask_knowledge_graph_query env user_id queries project_id node_ids) with
  | (tr, out) =>
      exists o rest,
        tr = EvGetProjectRepoDetails project_id user_id o :: rest /\
        List.filter is_resolution rest = [] /\
        (forall p, o = Returns p -> project_truthy p = false ->
                   rest = [] /\
                   out = Raises (ValueError (not_found_message project_id user_id)))
  end.
Proof.
  unfold exec, ask_knowledge_graph_query, bind, external.
  destruct (env_get_project_repo_details_from_db env [] project_id user_id)
    as [p|e] eqn:Hp; cbn [app].
  2: { eexists _, []. repeat split; intros; congruence. }
  destruct (project_truthy p) eqn:Ht; cbn [negb].
  2: { unfold raise. eexists _, []. repeat split; intros; simplify_eq; reflexivity. }
  destruct (p ≫= _) as [v|].
  2: { unfold raise. eexists _, []. repeat split; intros; simplify_eq; congruence. }
  unfold ret.
  destruct (build_query_list_silent queries v node_ids tt
              [EvGetProjectRepoDetails project_id user_id (Returns p)])
    as ([ql|e] & ->).
  2: { eexists _, []. repeat split; intros; simplify_eq; congruence. }
  unfold ask_multiple_knowledge_graph_queries, bind, external.
  destruct (env_InferenceService env _) as [[]|e]; cbn [app].
  2: { eexists _, [_]. repeat split; intros; simplify_eq; congruence. }
  match goal with
  | |- context [gather ?ts ?l ?tr] =>
      destruct (gather_process_query_trace ql l tr) as (evs & os & -> & Hevs & _)
  end.
  cbn [app]. eexists _, _. split; [reflexivity|]. split.
  - cbn [List.filter is_resolution].
    induction Hevs as [|ev evs Hev _ IH]; [reflexivity|].
    cbn [List.filter]. destruct ev; try discriminate Hev; exact IH.
  - intros; simplify_eq; congruence.
Qed.

End Fanout.

(** C7: for every batch of questions, [run] hands a value to its caller and
    never an exception: the results when the batch went through, the
    dictionary [{"error": "An unexpected error occurred: ..."}] built from
    whatever [ask_knowledge_graph_query] raised (project not found, engine
    failure) otherwise. *)
Theorem run_never_raises (env : Env) (user_id : string) (queries : list string)
    (repo_id : string) (node_ids : list string) :
  exists v,
    (exec (run env user_id queries repo_id node_ids)).2 = Returns v /\
    match (exec (ask_knowledge_graph_query env user_id queries repo_id node_ids)).2 with
    | Returns results => v = Results results
    | Raises e => v = ErrorDict ("An unexpected error occurred: " +:+ str_exn e)
    end.
Proof.
  unfold exec, run, try_except, bind, ret.
  destruct (ask_knowledge_graph_query env user_id queries repo_id node_ids tt [])
    as [[l tr] [results|e]]; cbn; eauto.
Qed.

(** C8: a batch resolves the project exactly once, whatever the number of
    questions; the resolution is the first call of the batch, before any
    question is dispatched; and when the project is not found nothing is
    dispatched: [ask_knowledge_graph_query] raises the not-found error, which
    [run] hands back as its error value. *)
Theorem project_resolved_once_per_batch (env : Env) (user_id : string)
    (queries : list string) (repo_id : string) (node_ids : list string) :
  let '(tr, out) := exec (run env user_id queries repo_id node_ids) in
  length (List.filter is_resolution tr) = 1%nat /\
  exists o rest,
    tr = EvGetProjectRepoDetails repo_id user_id o :: rest /\
    List.filter is_resolution rest = [] /\
    (forall p, o = Returns p -> project_truthy p = false ->
       List.filter is_dispatch tr = [] /\
       rest = [] /\
       (exec (ask_knowledge_graph_query env user_id queries repo_id node_ids)).2 =
         Raises (ValueError (not_found_message repo_id user_id)) /\
       out = Returns (ErrorDict ("An unexpected error occurred: " +:+
                                 not_found_message repo_id user_id))).
Proof.
  pose proof (ask_knowledge_graph_query_trace env user_id queries repo_id node_ids) as H.
  unfold exec, run, try_except, bind, ret in *.
  destruct (ask_knowledge_graph_query env user_id queries repo_id node_ids tt [])
    as [[l tr] out].
  destruct H as (o & rest & -> & Hrest & Hnf).
  assert (Hone : length (List.filter is_resolution
                   (EvGetProjectRepoDetails repo_id user_id o :: rest)) = 1%nat).
  { cbn [List.filter is_resolution]. rewrite Hrest. reflexivity. }
  destruct out as [results|e]; (split; [exact Hone|]); exists o, rest;
    (split; [reflexivity|]); (split; [exact Hrest|]);
    intros p Ho Hp; destruct (Hnf p Ho Hp) as [-> Hout]; simplify_eq;
    repeat split; reflexivity.
Qed.

Lemma project_resolved_once_per_batch_witness :
  let env := sample_env "python" "" None build_some (Returns tt) (Returns None) in
  project_truthy None = false /\
  (exec (run env "u1" ["q1"; "q2"; "q3"] "acme/tool" [])).1 =
    [EvGetProjectRepoDetails "acme/tool" "u1" (Returns None)] /\
  (exec (run env "u1" ["q1"; "q2"; "q3"] "acme/tool" [])).2 =
    Returns (ErrorDict ("An unexpected error occurred: " +:+
                        not_found_message "acme/tool" "u1")).
Proof.
  intros env.
  pose proof (project_resolved_once_per_batch env "u1" ["q1"; "q2"; "q3"]
                "acme/tool" []) as H.
  destruct (exec (run env "u1" ["q1"; "q2"; "q3"] "acme/tool" [])) as [tr out] eqn:E.
  destruct H as (_ & o & rest & Htr & _ & Hnf).
  assert (Ho : o = Returns None).
  { vm_compute in E. rewrite Htr in E. congruence. }
  destruct (Hnf None Ho eq_refl) as (_ & Hrest & _ & Hout).
  split; [reflexivity|]. cbn [fst snd]. rewrite Htr, Hrest, Ho, Hout.
  split; reflexivity.
Defined.

(** C9: a numeric field the raw match does not carry is 0 in the
    [QueryResponse], and no numeric field is ever [None]; [docstring] and
    [file_path] are whatever the raw match holds under these keys, [None]
    when it holds nothing; and [process_query] answers exactly the
    responses built this way from the matches of the engine, in order. *)
Theorem raw_match_defaults (env : Env) (request : QueryRequest)
    (results : list (gmap string PyVal)) (result : gmap string PyVal) :
  let response := to_QueryResponse result in
  (result !! "start_line" = None -> start_line response = PyInt 0) /\
  (result !! "end_line" = None -> end_line response = PyInt 0) /\
  (result !! "similarity" = None -> similarity response = PyInt 0) /\
  (start_line response <> PyNone /\ end_line response <> PyNone /\
   similarity response <> PyNone) /\
  (forall v, result !! "docstring" = Some v -> docstring response = v) /\
  (forall v, result !! "file_path" = Some v -> file_path response = v) /\
  (result !! "docstring" = None -> docstring response = PyNone) /\
  (result !! "file_path" = None -> file_path response = PyNone) /\
  (env_query_vector_index env [] (qr_project_id request) (qr_query request)
     (qr_node_ids request) = Returns results ->
   (exec (process_query env request)).2 = Returns (map to_QueryResponse results)).
Proof.
  intros response. subst response.
  cbn [to_QueryResponse start_line end_line similarity docstring file_path].
  unfold py_or, dict_get.
  repeat split.
  1-3: intros ->; reflexivity.
  1-3: match goal with
       | |- context [default PyNone ?x] => destruct x as [[]|]
       end; cbn; repeat case_match; discriminate.
  1-2: intros v ->; reflexivity.
  1-2: intros ->; reflexivity.
  intros H. unfold exec, process_query, bind, external, ret. rewrite H. reflexivity.
Qed.

Lemma raw_match_defaults_witness :
  let env := sample_env "python" "" None build_some (Returns tt)
               (Returns (Some sample_project)) in
  let request := {| qr_node_ids := []; qr_project_id := "p-1";
                    qr_query := "what parses a file?" |} in
  (bare_match !! "start_line" = None /\ bare_match !! "end_line" = None /\
   bare_match !! "similarity" = None /\ bare_match !! "docstring" = None /\
   sample_match !! "file_path" = Some (PyStr "src/a.py")) /\
  to_QueryResponse bare_match =
    {| node_id := PyStr "n7"; docstring := PyNone; file_path := PyNone;
       start_line := PyInt 0; end_line := PyInt 0; similarity := PyInt 0 |} /\
  file_path (to_QueryResponse sample_match) = PyStr "src/a.py" /\
  (exec (process_query env request)).2 = Returns [to_QueryResponse sample_match].
Proof.
  intros env request.
  destruct (raw_match_defaults env request [sample_match] bare_match)
    as (Hs & He & Hm & _ & _ & _ & Hd & Hf & Hq).
  destruct (raw_match_defaults env request [sample_match] sample_match)
    as (_ & _ & _ & _ & _ & Hp & _).
  split; [repeat split; reflexivity|].
  split; [|split; [apply Hp; reflexivity | apply Hq; reflexivity]].
  specialize (Hs eq_refl). specialize (He eq_refl). specialize (Hm eq_refl).
  specialize (Hd eq_refl). specialize (Hf eq_refl).
  destruct (to_QueryResponse bare_match) eqn:E. cbn in Hs, He, Hm, Hd, Hf.
  subst. f_equal. vm_compute in E. congruence.
Defined.

End KnowledgeGraphQueryToolProofs.

(** ** Facts about traces *)

(** What the checker [ready_after_parsed] accepts has every [READY] write
    preceded by an accepted [PARSED] write for the same project. *)
Lemma ready_after_parsed_sound (tr : Trace) :
  forall parsed, ready_after_parsed parsed tr = true ->
  forall pre post p o,
    tr = pre ++ EvUpdateProjectStatus p READY o :: post ->
    In p parsed \/ In (EvUpdateProjectStatus p PARSED (Returns tt)) pre.
Proof.
  induction tr as [|ev tr IH]; intros parsed Hok pre post p o Heq.
  - destruct pre; discriminate.
  - destruct pre as [|ev' pre]; cbn [app] in Heq; injection Heq as -> ->.
    + cbn in Hok. apply andb_true_iff in Hok as [Hin _].
      left. apply existsb_exists in Hin as (q & Hq & Heq).
      apply Z.eqb_eq in Heq. subst. exact Hq.
    + assert (Hcases :
        (exists q, ev' = EvUpdateProjectStatus q PARSED (Returns tt) /\
                   ready_after_parsed (q :: parsed)
                     (pre ++ EvUpdateProjectStatus p READY o :: post) = true) \/
        ready_after_parsed parsed
          (pre ++ EvUpdateProjectStatus p READY o :: post) = true).
      { destruct ev'; cbn in Hok; auto.
        destruct st; auto.
        - destruct o0 as [[]|]; eauto.
        - apply andb_true_iff in Hok as [_ Hok]. auto. }
      destruct Hcases as [(q & -> & Hok')|Hok'].
      * destruct (IH _ Hok' pre post p o eq_refl) as [[<-|Hin]|Hin].
        -- right. left. reflexivity.
        -- left. exact Hin.
        -- right. right. exact Hin.
      * destruct (IH _ Hok' pre post p o eq_refl) as [Hin|Hin]; auto.
        right. right. exact Hin.
Qed.

(** Events that write no [READY] can follow an accepted trace. *)
Lemma ready_after_parsed_app (a b : Trace) :
  forall parsed,
    ready_after_parsed parsed a = true ->
    forallb (fun ev => negb (is_ready_write ev)) b = true ->
    ready_after_parsed parsed (a ++ b) = true.
Proof.
  induction a as [|ev a IH]; intros parsed Ha Hb; cbn [app].
  - clear Ha. revert parsed.
    induction b as [|ev b IHb]; intros parsed; [reflexivity|].
    cbn [forallb] in Hb. apply andb_true_iff in Hb as [Hev Hb].
    specialize (IHb Hb).
    destruct ev; cbn [ready_after_parsed]; try apply IHb.
    destruct st; try apply IHb.
    + destruct o as [[]|]; apply IHb.
    + discriminate Hev.
  - destruct ev; cbn [ready_after_parsed] in *; try (apply IH; assumption).
    destruct st; try (apply IH; assumption).
    + destruct o as [[]|]; apply IH; assumption.
    + apply andb_true_iff in Ha as [-> Ha]. cbn [andb]. apply IH; assumption.
Qed.

(** When every accepted write is for project [p], the store holds the last
    of them for [p] and nothing for any other project. *)
Lemma status_of_uniform (tr : Trace) (p q : Z) (sts : list ProjectStatusEnum) :
  status_writes tr = map (pair p) sts ->
  status_of tr q = (if p =? q then last sts else None).
Proof.
  unfold status_of. intros ->.
  induction sts as [|st sts IH] using rev_ind.
  - cbn. destruct (p =? q); reflexivity.
  - rewrite map_app, fold_left_app, IH, last_snoc. cbn.
    destruct (p =? q); reflexivity.
Qed.

(** ** Runs of [parse_directory] *)

Ltac norm_parse :=
  cbv beta iota zeta delta
    [exec call parse_directory cleanup_step detect_language remove_extracted_dir
     CodeGraphService getitem max_key try_finally try_except
     update_project_status record observe get_locals set_locals
     bind external ret raise v_project_id v_extracted_dir negb isinstance_Repo].

(** As [step_with], but a run that reaches [analyze_directory] takes the
    analysis as a whole, with its [analysis_facts]. *)
Ltac step_parse :=
  lazymatch goal with
  | |- ?G =>
      let s := stuck_on G in
      lazymatch s with
      | G => fail "the run is over"
      | analyze_directory ?env ?d ?p ?u ?l ?f ?t =>
          let fr' := fresh "fr'" in
          let evs := fresh "evs" in
          let out := fresh "out" in
          let Hrun := fresh "Hrun" in
          let Hfacts := fresh "Hfacts" in
          destruct (analyze_directory_spec env d p u l f t)
            as (fr' & evs & out & Hrun & Hfacts);
          rewrite Hrun; clear Hrun
      | _ => first [ is_var s; destruct s | destruct s eqn:? ]
      end
  end; norm_parse.

Ltac run_parse := norm_parse; repeat step_parse; tidy.

Ltac run_analysis :=
  unfold run_analyze_directory, exec, call; norm_analysis;
  repeat step_with norm_analysis; tidy.

Ltac in_cases H :=
  cbn [In] in H;
  repeat (destruct H as [H|H]; [try discriminate H|]);
  try contradiction.

Lemma parse_directory_status env rd uid email pid cg :
  match exec (parse_directory env rd uid email pid cg) with
  | (tr, _) =>
      ready_after_parsed [] tr = true /\
      exists p sts, status_writes tr = map (pair p) sts /\
                    (last sts = Some READY -> sts = [PARSED; READY])
  end.
Proof.
  run_parse.
  all: split;
    [ cbn [ready_after_parsed];
      first [ reflexivity
            | apply Hfacts
            | apply ready_after_parsed_app; [apply Hfacts | reflexivity] ]
    | unfold analysis_facts, status_writes in *;
      cbn [flat_map app]; rewrite ?flat_map_app;
      first [ exists 0, []; split; [reflexivity | discriminate]
            | eexists _, [ERROR]; split; [reflexivity | discriminate]
            | destruct Hfacts as (_ & _ & _ & (sts & Hw & Hl) & _);
              rewrite Hw; cbn [flat_map app];
              lazymatch type of Hw with
              | _ = map (pair ?p) _ =>
                  first [ exists p, sts; split;
                            [rewrite ?app_nil_r; reflexivity | exact Hl]
                        | exists p, (sts ++ [ERROR]); split;
                            [rewrite map_app; reflexivity
                            | rewrite last_snoc; discriminate] ]
              end ] ].
Qed.

Lemma parse_directory_builds env rd uid email pid cg :
  match exec (parse_directory env rd uid email pid cg) with
  | (tr, _) => build_discipline tr
  end.
Proof.
  run_parse.
  all: unfold analysis_facts, build_discipline, build_outcomes, insert_events in *;
       cbn [flat_map List.filter app is_insert];
       rewrite ?flat_map_app, ?List.filter_app;
       cbn [flat_map List.filter app is_insert]; rewrite ?app_nil_r;
       first [ apply Hfacts
             | cbn; split; [lia | split; intros; discriminate] ].
Qed.

Lemma parse_directory_graph_native_paths env rd uid email pid cg :
  match exec (parse_directory env rd uid email pid cg) with
  | (tr, out) =>
      forall dir pid' lang,
        setup_result tr = Some (dir, pid') ->
        detected_language tr = Some lang -> is_graph_native lang = true ->
        all_returned is_graph_manager_setup tr = true ->
        all_returned is_graph_native_recovery tr = true ->
        env_PROJECT_PATH env <> None ->
        out = Returns {| res_message := success_message; res_id := pid' |}
  end.
Proof.
  unfold success_message.
  run_parse.
  all: intros dir pid' lang; unfold setup_result, detected_language; cbn;
       try discriminate.
  all: intros Hs Hd Hn Hm Hr Hp; simplify_eq; try congruence.
  all: unfold all_returned in *; cbn in Hm, Hr;
       rewrite ?forallb_app in Hm, Hr;
       apply andb_true_iff in Hm, Hr; destruct Hm as [Hm _], Hr as [Hr _];
       destruct Hfacts as (_ & _ & _ & _ & Hnat & _);
       specialize (Hnat Hn Hm Hr); discriminate.
Qed.

Lemma parse_directory_unsupported_paths env rd uid email pid cg :
  match exec (parse_directory env rd uid email pid cg) with
  | (tr, out) =>
      detected_language tr = Some "other" ->
      List.filter is_graph_builder_call tr = [] /\
      (cg = false -> List.filter is_graph_store_call tr = []) /\
      (cg = true ->
       exists uri username password,
         List.filter is_graph_store_call tr =
           [EvCodeGraphService uri username password (Returns tt);
            EvCleanupGraph pid (Returns tt)]) /\
      (forall dir pid',
         setup_result tr = Some (dir, pid') ->
         all_returned is_unsupported_report tr = true ->
         env_PROJECT_PATH env <> None ->
         status_of tr pid' = Some ERROR /\
         out = Raises (HTTPException 500
                         (str_int pid' +:+ " Failed during parsing: " +:+
                          unsupported_message)))
  end.
Proof.
  run_parse.
  all: unfold detected_language; cbn [detections flat_map app head];
       try discriminate.
  all: intros Hd; simplify_eq.
  all: kill_units.
  all: unfold analysis_facts in Hfacts;
       destruct Hfacts as (_ & _ & _ & _ & _ & _ & Hoth);
       first [ destruct (Hoth eq_refl) as (Hb & Hs & (? & Hraised) & Hrep)
             | destruct (Hoth Hd) as (Hb & Hs & (? & Hraised) & Hrep) ];
       clear Hoth; try discriminate Hraised.
  all: split;
       [ cbn [List.filter is_graph_builder_call];
         rewrite ?List.filter_app, ?Hb; reflexivity | ].
  all: split;
       [ intros ?; try discriminate; cbn [List.filter is_graph_store_call];
         rewrite ?List.filter_app, ?Hs; reflexivity | ].
  all: split;
       [ intros ?; try discriminate; cbn [List.filter is_graph_store_call];
         rewrite ?List.filter_app, ?Hs; eexists _, _, _; reflexivity | ].
  all: intros dir pid'; unfold setup_result;
       cbn [setup_results flat_map app head]; intros ?; simplify_eq.
  all: unfold all_returned in *;
       cbn [forallb implb is_unsupported_report event_returned returned andb];
       rewrite ?forallb_app.
  all: intros Hall Hroot; try congruence.
  all: apply andb_true_iff in Hall as [Hevs Hpost];
       destruct (Hrep Hevs) as (Hout & Hsw); simplify_eq;
       try discriminate.
  all: split; [ | reflexivity ].
  all: unfold status_of, status_writes in *; cbn [flat_map app];
       rewrite flat_map_app, Hsw; cbn; rewrite !Z.eqb_refl; reflexivity.
Qed.

Lemma analyze_directory_enrichment_paths env d pid uid lang e :
  match run_analyze_directory env d pid uid lang with
  | (tr, out) =>
      In (EvRunInference pid (Raises e)) tr ->
      (is_graph_native lang = true ->
         (forall o, ~ In (EvUpdateProjectStatus pid READY o) tr) /\
         (exists o, In (EvUpdateProjectStatus pid ERROR o) tr) /\
         (all_returned is_graph_native_recovery tr = true ->
            out = Returns tt /\ status_of tr pid = Some ERROR)) /\
      (is_graph_native lang = false ->
         (forall o, ~ In (EvUpdateProjectStatus pid ERROR o) tr) /\
         (forall o, ~ In (EvUpdateProjectStatus pid READY o) tr) /\
         (exists e', out = Raises e') /\
         (all_returned is_generic_finalizer tr = true -> out = Raises e))
  end.
Proof.
  run_analysis.
  all: intros Hin; in_cases Hin.
  all: simplify_eq; kill_units.
  all: unfold is_graph_native; split; intros Hn; try congruence.
  all: repeat split.
  all: try (intros o Ho; in_cases Ho).
  all: try (eexists; cbn [In]; repeat (first [left; reflexivity | right]); fail).
  all: try (eexists; reflexivity).
  all: try (cbn; intros;
            first [discriminate | reflexivity | rewrite Z.eqb_refl; reflexivity]).
Qed.

(** ** The ingestion orchestrator *)

Module ParsingServiceProofs.

(** C1: when the builder returns no node twice, the run persists status
    [ERROR] but surfaces nothing: the [ParsingFailedError] raised at line
    150 is caught by the [except Exception] of the same [try], and
    [parse_directory] returns its success value. *)
Theorem empty_graph_twice_reports_success :
  let r := exec (parse_directory env_empty_graph sample_request "u1"
                   "u1@acme.io" 7 false) in
  detected_language r.1 = Some "python" /\
  build_outcomes r.1 = [Returns ([], []); Returns ([], [])] /\
  status_of r.1 7 = Some ERROR /\
  r.2 = Returns {| res_message := success_message; res_id := 7 |}.
Proof. vm_compute. repeat split; reflexivity. Qed.

(** C2: the number of [build_graph] invocations is decided by what the
    builder answers.  It is never more than two; when the first answer has
    nodes there is exactly one invocation, followed by one insert cycle,
    these nodes and then these edges (the edges only if inserting the nodes
    returned); when the first answer has no node there are exactly two
    invocations. *)
Theorem build_graph_invocations (env : Env) (repo_details : ParsingRequest)
    (user_id user_email : string) (project_id : Z) (cleanup_graph : bool) :
  let tr := (exec (parse_directory env repo_details user_id user_email
                     project_id cleanup_graph)).1 in
  (length (build_outcomes tr) <= 2)%nat /\
  (forall n r,
      head (build_outcomes tr) = Some (Returns (n, r)) -> n <> [] ->
      length (build_outcomes tr) = 1%nat /\
      ((exists e, insert_events tr = [EvCreateNodes n (Raises e)]) \/
       (exists o, insert_events tr =
                    [EvCreateNodes n (Returns tt); EvCreateEdges r o]))) /\
  (forall r,
      head (build_outcomes tr) = Some (Returns ([], r)) ->
      length (build_outcomes tr) = 2%nat).
Proof.
  pose proof (parse_directory_builds env repo_details user_id user_email
                project_id cleanup_graph) as H.
  destruct (exec _) as [tr out]. exact H.
Qed.

Lemma build_graph_invocations_witness :
  let nodes := ["a.py"; "a.py:f"] in
  let edges := [("a.py", "a.py:f")] in
  let once := (exec (parse_directory env_python sample_request "u1"
                       "u1@acme.io" 7 true)).1 in
  let twice := (exec (parse_directory env_retry sample_request "u1"
                        "u1@acme.io" 7 true)).1 in
  (head (build_outcomes once) = Some (Returns (nodes, edges)) /\
   length (build_outcomes once) = 1%nat /\
   insert_events once =
     [EvCreateNodes nodes (Returns tt); EvCreateEdges edges (Returns tt)]) /\
  (head (build_outcomes twice) = Some (Returns ([], [])) /\
   length (build_outcomes twice) = 2%nat).
Proof.
  intros nodes edges once twice.
  destruct (build_graph_invocations env_python sample_request "u1"
              "u1@acme.io" 7 true) as (_ & Hone & _).
  destruct (build_graph_invocations env_retry sample_request "u1"
              "u1@acme.io" 7 true) as (_ & _ & Htwo).
  split.
  - split; [reflexivity|].
    destruct (Hone nodes edges eq_refl ltac:(discriminate)) as [Hlen _].
    split; [exact Hlen | reflexivity].
  - split; [reflexivity|]. exact (Htwo [] eq_refl).
Defined.

(** C3, counterexample: a run with [cleanup_graph] set, on a repository
    whose language is [other], has called the graph store twice before the
    language is known. *)
Lemma cleanup_reaches_graph_store_for_other :
  let r := exec (parse_directory env_other sample_request "u1"
                   "u1@acme.io" 7 true) in
  detected_language r.1 = Some "other" /\
  List.filter is_graph_store_call r.1 =
    [EvCodeGraphService "bolt://localhost:7687" "neo4j" "secret" (Returns tt);
     EvCleanupGraph 7 (Returns tt)].
Proof. vm_compute. split; reflexivity. Qed.

(** C3, amended: in a run whose detected language is [other] the graph
    builder is never called, and the graph store is called only by the
    optional cleanup of step 1: not at all when [cleanup_graph] is off, to
    open the connection and delete the stale graph when it is on.  The
    dispatch step itself calls neither.  When the status writes and the
    statistics logging return and the project-storage root is configured,
    status [ERROR] is persisted, the dispatch step raises
    [ParsingFailedError] and the run raises the parsing-failure message. *)
Theorem unsupported_language_run (env : Env) (repo_details : ParsingRequest)
    (user_id user_email : string) (project_id : Z) (cleanup_graph : bool)
    (extracted_dir : string) :
  let r := exec (parse_directory env repo_details user_id user_email
                   project_id cleanup_graph) in
  let a := run_analyze_directory env extracted_dir project_id user_id "other" in
  (List.filter is_graph_builder_call a.1 = [] /\
   List.filter is_graph_store_call a.1 = [] /\
   (all_returned is_unsupported_report a.1 = true ->
    a.2 = Raises (ParsingFailedError unsupported_message))) /\
  (detected_language r.1 = Some "other" ->
   List.filter is_graph_builder_call r.1 = [] /\
   (cleanup_graph = false -> List.filter is_graph_store_call r.1 = []) /\
   (cleanup_graph = true ->
    exists uri username password,
      List.filter is_graph_store_call r.1 =
        [EvCodeGraphService uri username password (Returns tt);
         EvCleanupGraph project_id (Returns tt)]) /\
   (forall dir pid',
      setup_result r.1 = Some (dir, pid') ->
      all_returned is_unsupported_report r.1 = true ->
      env_PROJECT_PATH env <> None ->
      status_of r.1 pid' = Some ERROR /\
      r.2 = Raises (HTTPException 500
                      (str_int pid' +:+ " Failed during parsing: " +:+
                       unsupported_message)))).
Proof.
  intros r a. split.
  - subst a. unfold run_analyze_directory, exec, call.
    destruct (analyze_directory_spec env extracted_dir project_id user_id
                "other" {| v_service := false |} [])
      as (fr' & evs & out & -> & Hfacts).
    cbn [app fst snd].
    destruct Hfacts as (_ & _ & _ & _ & _ & _ & Hoth).
    destruct (Hoth eq_refl) as (Hb & Hs & _ & Hrep).
    repeat split; try assumption. intros Hall. apply (Hrep Hall).
  - subst r.
    pose proof (parse_directory_unsupported_paths env repo_details user_id
                  user_email project_id cleanup_graph) as H.
    destruct (exec _) as [tr out]. exact H.
Qed.

Lemma unsupported_language_run_witness :
  let r := exec (parse_directory env_other sample_request "u1"
                   "u1@acme.io" 7 true) in
  detected_language r.1 = Some "other" /\
  List.filter is_graph_builder_call r.1 = [] /\
  (exists uri username password,
     List.filter is_graph_store_call r.1 =
       [EvCodeGraphService uri username password (Returns tt);
        EvCleanupGraph 7 (Returns tt)]) /\
  status_of r.1 7 = Some ERROR /\
  r.2 = Raises (HTTPException 500
                  ("7 Failed during parsing: " +:+ unsupported_message)).
Proof.
  intros r.
  destruct (unsupported_language_run env_other sample_request "u1"
              "u1@acme.io" 7 true work_dir) as [_ H].
  assert (Hd : detected_language r.1 = Some "other") by reflexivity.
  destruct (H Hd) as (Hb & _ & Hs & Hrun).
  destruct (Hrun work_dir 7 eq_refl eq_refl ltac:(discriminate)) as [Hst Hout].
  split; [exact Hd|]. split; [exact Hb|]. split; [exact (Hs eq_refl)|].
  split; [exact Hst | exact Hout].
Defined.

(** C4: an exception of the enrichment step is handled differently by the
    two branches.  Graph-native language: status [ERROR] is written,
    [READY] never is, and when the handler's status write and event and the
    closing of the graph manager return, [analyze_directory] returns
    normally with [ERROR] persisted: the exception is not re-raised.
    Generic language: [analyze_directory] writes neither [ERROR] nor [READY]
    and ends by raising; it raises the exception of the enrichment step
    itself when the calls of its [finally] clause return. *)
Theorem enrichment_failure_asymmetry (env : Env) (extracted_dir : string)
    (project_id : Z) (user_id language : string) (e : exn) :
  let r := run_analyze_directory env extracted_dir project_id user_id language in
  In (EvRunInference project_id (Raises e)) r.1 ->
  (is_graph_native language = true ->
     (forall o, ~ In (EvUpdateProjectStatus project_id READY o) r.1) /\
     (exists o, In (EvUpdateProjectStatus project_id ERROR o) r.1) /\
     (all_returned is_graph_native_recovery r.1 = true ->
        r.2 = Returns tt /\ status_of r.1 project_id = Some ERROR)) /\
  (is_graph_native language = false ->
     (forall o, ~ In (EvUpdateProjectStatus project_id ERROR o) r.1) /\
     (forall o, ~ In (EvUpdateProjectStatus project_id READY o) r.1) /\
     (exists e', r.2 = Raises e') /\
     (all_returned is_generic_finalizer r.1 = true -> r.2 = Raises e)).
Proof.
  intros r. subst r.
  pose proof (analyze_directory_enrichment_paths env extracted_dir project_id
                user_id language e) as H.
  destruct (run_analyze_directory _ _ _ _ _) as [tr out]. exact H.
Qed.

Lemma enrichment_failure_asymmetry_witness :
  let native := run_analyze_directory env_python_engine_down work_dir 7 "u1"
                  "python" in
  let generic := run_analyze_directory env_java_engine_down work_dir 7 "u1"
                   "java" in
  (In (EvRunInference 7 (Raises engine_down)) native.1 /\
   native.2 = Returns tt /\ status_of native.1 7 = Some ERROR) /\
  (In (EvRunInference 7 (Raises engine_down)) generic.1 /\
   generic.2 = Raises engine_down).
Proof.
  intros native generic.
  assert (Hn : In (EvRunInference 7 (Raises engine_down)) native.1).
  { vm_compute. tauto. }
  assert (Hg : In (EvRunInference 7 (Raises engine_down)) generic.1).
  { vm_compute. tauto. }
  destruct (enrichment_failure_asymmetry env_python_engine_down work_dir 7 "u1"
              "python" engine_down Hn) as [Hnative _].
  destruct (enrichment_failure_asymmetry env_java_engine_down work_dir 7 "u1"
              "java" engine_down Hg) as [_ Hgeneric].
  destruct (Hnative eq_refl) as (_ & _ & Hret).
  destruct (Hgeneric eq_refl) as (_ & _ & _ & Hraise).
  split.
  - split; [exact Hn|]. exact (Hret eq_refl).
  - split; [exact Hg|]. exact (Hraise eq_refl).
Defined.

(** C5: in every run, on every path, a [READY] write comes after an
    accepted [PARSED] write for the same project; and a run that leaves the
    project [READY] has had exactly two status writes accepted, [PARSED]
    and then [READY]. *)
Theorem ready_only_after_parsed (env : Env) (repo_details : ParsingRequest)
    (user_id user_email : string) (project_id : Z) (cleanup_graph : bool) :
  let tr := (exec (parse_directory env repo_details user_id user_email
                     project_id cleanup_graph)).1 in
  (forall pre post p o,
      tr = pre ++ EvUpdateProjectStatus p READY o :: post ->
      In (EvUpdateProjectStatus p PARSED (Returns tt)) pre) /\
  (forall p,
      status_of tr p = Some READY ->
      status_writes tr = [(p, PARSED); (p, READY)]).
Proof.
  pose proof (parse_directory_status env repo_details user_id user_email
                project_id cleanup_graph) as H.
  destruct (exec _) as [tr out]. cbn [fst].
  destruct H as (Hok & q & sts & Hw & Hlast). split.
  - intros pre post p o Heq.
    destruct (ready_after_parsed_sound tr [] Hok pre post p o Heq) as [[]|Hin].
    exact Hin.
  - intros p Hst. rewrite (status_of_uniform tr q p sts Hw) in Hst.
    destruct (Z.eqb_spec q p) as [->|]; [|discriminate].
    rewrite Hw, (Hlast Hst). reflexivity.
Qed.

Lemma ready_only_after_parsed_witness :
  let tr := (exec (parse_directory env_python sample_request "u1"
                     "u1@acme.io" 7 false)).1 in
  tr = firstn 14 tr ++ EvUpdateProjectStatus 7 READY (Returns tt) :: skipn 15 tr /\
  In (EvUpdateProjectStatus 7 PARSED (Returns tt)) (firstn 14 tr) /\
  status_of tr 7 = Some READY /\
  status_writes tr = [(7, PARSED); (7, READY)].
Proof.
  intros tr.
  destruct (ready_only_after_parsed env_python sample_request "u1"
              "u1@acme.io" 7 false) as [Hbefore Hwrites].
  assert (Hsplit : tr = firstn 14 tr ++
                        EvUpdateProjectStatus 7 READY (Returns tt) :: skipn 15 tr)
    by reflexivity.
  split; [exact Hsplit|].
  split; [exact (Hbefore _ _ _ _ Hsplit)|].
  split; [reflexivity|]. exact (Hwrites 7 eq_refl).
Defined.

(** The [finally] clause of [parse_directory] on every path of every run:
    a directory is removed only if it is the working directory of the run,
    exists, and its path starts with the configured root as a string; and
    the working directory is removed on every path, whatever the run
    returns or raises, once these three hold. *)
Lemma parse_directory_removal_paths env rd uid email pid cg :
  match exec (parse_directory env rd uid email pid cg) with
  | (tr, _) =>
      (forall d, In d (removed_dirs tr) ->
         exists root pid',
           env_PROJECT_PATH env = Some root /\ startswith d root = true /\
           setup_result tr = Some (d, pid') /\ path_checks tr = [(d, true)]) /\
      (forall d pid' root,
         setup_result tr = Some (d, pid') -> d <> "" ->
         path_checks tr = [(d, true)] ->
         env_PROJECT_PATH env = Some root -> startswith d root = true ->
         removed_dirs tr = [d])
  end.
Proof.
  run_parse.
  all: try (unfold analysis_facts in Hfacts;
            destruct Hfacts as ((Hsetup & _ & Hrm & Hpc) & _)).
  all: unfold removed_dirs, setup_result, setup_results, path_checks in *;
       cbn [flat_map app head];
       rewrite ?flat_map_app, ?Hrm, ?Hsetup, ?Hpc;
       cbn [flat_map app head].
  all: split.
  all: try (intros d Hd; in_cases Hd; subst; eexists _, _;
            repeat split; try eassumption; reflexivity).
  all: intros d pid' root Hs Hne Hex Hroot Hpre; simplify_eq; try reflexivity;
       try congruence.
  all: match goal with H : (_ =? "")%string = true |- _ =>
         apply String.eqb_eq in H; congruence end.
Qed.

Lemma prefix_refl (s : string) : String.prefix s s = true.
Proof.
  induction s as [|c s IH]; cbn; [reflexivity|].
  destruct (ascii_dec c c); [exact IH | congruence].
Qed.

Lemma prefix_app_l (a b s : string) :
  String.prefix (a +:+ b) s = true -> String.prefix a s = true.
Proof.
  revert s. induction a as [|c a IH]; intros s H; [destruct s; reflexivity|].
  change (String c a +:+ b) with (String c (a +:+ b)) in H.
  destruct s as [|c' s]; cbn in *; [discriminate|].
  destruct (ascii_dec c c'); [apply IH; exact H | discriminate].
Qed.

(** The guard lets through every path that lies under the root; the
    converse fails. *)
Lemma lies_under_startswith (root dir : string) :
  lies_under root dir = true -> startswith dir root = true.
Proof.
  unfold lies_under, startswith, with_trailing_sep. intros H.
  apply orb_true_iff in H as [H|H].
  - apply String.eqb_eq in H. subst. apply prefix_refl.
  - destruct (String.eqb root "") eqn:He.
    + apply String.eqb_eq in He. subst. destruct dir; reflexivity.
    + destruct (String.eqb _ "/"); [exact H|].
      apply (prefix_app_l root "/"). exact H.
Qed.

(** C6: the guard of the [finally] clause compares strings, not paths: with
    the root [/srv/projects] configured, a working directory
    [/srv/projects-old/repo], which is not under the root, passes
    [startswith] and is removed. *)
Theorem sibling_directory_removed :
  let r := exec (parse_directory env_sibling_dir sample_request "u1"
                   "u1@acme.io" 7 false) in
  env_PROJECT_PATH env_sibling_dir = Some "/srv/projects" /\
  setup_result r.1 = Some ("/srv/projects-old/repo", 7) /\
  lies_under "/srv/projects" "/srv/projects-old/repo" = false /\
  startswith "/srv/projects-old/repo" "/srv/projects" = true /\
  removed_dirs r.1 = ["/srv/projects-old/repo"].
Proof. vm_compute. repeat split; reflexivity. Qed.

(** C10, counterexample: two runs on a Python project whose acquisition and
    directory setup succeeded and which nevertheless raise.  In the first
    the second index cannot be created: lines 140-141 are outside the [try]
    of the graph-native branch, the failure reaches the handler of
    [parse_directory], which writes [ERROR] and raises.  In the second the
    enrichment raises, the handler of the branch writes [ERROR], and the
    telemetry call of the same handler raises: nothing catches it before
    the handler of [parse_directory]. *)
Lemma graph_native_failure_surfaces :
  let index := exec (parse_directory env_index_fails sample_request "u1"
                       "u1@acme.io" 7 false) in
  let handler := exec (parse_directory env_error_event_fails sample_request "u1"
                         "u1@acme.io" 7 false) in
  (setup_result index.1 = Some (work_dir, 7) /\
   detected_language index.1 = Some "python" /\
   In (EvCreateNodeIdIndex (Raises store_down)) index.1 /\
   status_of index.1 7 = Some ERROR /\
   index.2 = Raises (HTTPException 500
                       (surfaced_detail env_index_fails 7 store_down))) /\
  (setup_result handler.1 = Some (work_dir, 7) /\
   detected_language handler.1 = Some "python" /\
   In (EvRunInference 7 (Raises engine_down)) handler.1 /\
   In (EvSendEvent "u1" 7 "Error" (Raises telemetry_down)) handler.1 /\
   status_of handler.1 7 = Some ERROR /\
   handler.2 = Raises (HTTPException 500
                         (surfaced_detail env_error_event_fails 7 telemetry_down))).
Proof.
  vm_compute.
  repeat split; first [reflexivity | tauto].
Qed.

(** C10, amended: in a run on a graph-native language whose acquisition and
    directory setup succeeded, whatever the graph construction, the
    inserts, the status writes or the enrichment did inside the [try] of
    the graph-native branch, [parse_directory] returns its success value
    with the id of the project, provided the branch could open its graph
    manager, its error handler and its [finally] completed, and the
    project-storage root is configured. *)
Theorem graph_native_failure_returns_success (env : Env)
    (repo_details : ParsingRequest) (user_id user_email : string)
    (project_id : Z) (cleanup_graph : bool) (dir : string) (pid' : Z)
    (language : string) :
  let r := exec (parse_directory env repo_details user_id user_email
                   project_id cleanup_graph) in
  setup_result r.1 = Some (dir, pid') ->
  detected_language r.1 = Some language ->
  is_graph_native language = true ->
  all_returned is_graph_manager_setup r.1 = true ->
  all_returned is_graph_native_recovery r.1 = true ->
  env_PROJECT_PATH env <> None ->
  r.2 = Returns {| res_message := "The project has been parsed successfully";
                   res_id := pid' |}.
Proof.
  intros r. subst r.
  pose proof (parse_directory_graph_native_paths env repo_details user_id
                user_email project_id cleanup_graph) as H.
  destruct (exec _) as [tr out]. cbn [fst snd]. apply H.
Qed.

Lemma graph_native_failure_returns_success_witness :
  let r := exec (parse_directory env_python_engine_down sample_request "u1"
                   "u1@acme.io" 7 true) in
  In (EvRunInference 7 (Raises engine_down)) r.1 /\
  status_of r.1 7 = Some ERROR /\
  r.2 = Returns {| res_message := "The project has been parsed successfully";
                   res_id := 7 |}.
Proof.
  intros r.
  split; [vm_compute; tauto|]. split; [reflexivity|].
  apply (graph_native_failure_returns_success env_python_engine_down
           sample_request "u1" "u1@acme.io" 7 true work_dir 7 "python");
    first [reflexivity | discriminate].
Defined.

End ParsingServiceProofs.

(** ** Further runs of analyze_directory and parse_directory *)

Lemma analyze_directory_release_paths env d pid uid lang :
  match run_analyze_directory env d pid uid lang with
  | (tr, out) =>
      (is_graph_native lang = true ->
         (In (EvCreateNodeIdIndex (Returns tt)) tr ->
            exists o, List.filter is_manager_close tr = [EvGraphManagerClose o] /\
                      last tr = Some (EvGraphManagerClose o)) /\
         (~ In (EvCreateNodeIdIndex (Returns tt)) tr ->
            List.filter is_manager_close tr = [] /\ exists e, out = Raises e)) /\
      (is_generic_language lang = true ->
         (forall uri username password,
            In (EvCodeGraphService uri username password (Returns tt)) tr ->
            exists o, List.filter is_service_close tr = [EvServiceClose o]) /\
         ((forall uri username password,
             ~ In (EvCodeGraphService uri username password (Returns tt)) tr) ->
            List.filter is_service_close tr = [] /\
            out = Raises (UnboundLocalError unbound_service_message)))
  end.
Proof.
  run_analysis.
  all: kill_units.
  all: unfold is_generic_language, is_graph_native, unbound_service_message.
  all: split; intros Hn;
       try (rewrite ?Heqb, ?Heqb0 in Hn; cbn in Hn; congruence).
  all: split.
  all: first
    [ (* index created: closed once, last *)
      intros Hin; in_cases Hin; eexists; split; reflexivity
    | (* index not created *)
      intros Hnot;
      first [ split; [reflexivity | eexists; reflexivity]
            | split; reflexivity
            | exfalso; apply Hnot; cbn [In];
              repeat (first [left; reflexivity | right]) ]
    | intros uri username password Hin; in_cases Hin; eexists; reflexivity
    | intros Hnot; exfalso; eapply Hnot; cbn [In];
      repeat (first [left; reflexivity | right])
    | idtac ].
Qed.

Ltac solve_in := cbn [In]; repeat (first [left; reflexivity | right]); fail.

Lemma analyze_directory_order_paths env d pid uid lang :
  match run_analyze_directory env d pid uid lang with
  | (tr, out) =>
      (forall o, In (EvUpdateProjectStatus pid PARSED o) tr ->
         (is_graph_native lang = true ->
            exists n r,
              last (build_outcomes tr) = Some (Returns (n, r)) /\ n <> [] /\
              In (EvCreateNodes n (Returns tt)) tr /\
              In (EvCreateEdges r (Returns tt)) tr) /\
         (is_graph_native lang = false ->
            In (EvCreateAndStoreGraph d pid uid (Returns tt)) tr)) /\
      (forall o, In (EvRunInference pid o) tr ->
         In (EvUpdateProjectStatus pid PARSED (Returns tt)) tr) /\
      (forall o, In (EvUpdateProjectStatus pid READY o) tr ->
         In (EvRunInference pid (Returns tt)) tr /\
         In (EvLogGraphStats pid (Returns tt)) tr) /\
      (forall e, In (EvSendEvent uid pid "Parsed" (Raises e)) tr ->
         forall o, ~ In (EvRunInference pid o) tr) /\
      (forall e, In (EvSendEvent uid pid "Ready" (Raises e)) tr ->
         In (EvUpdateProjectStatus pid READY (Returns tt)) tr /\
         (all_returned is_graph_native_recovery tr = true ->
            out = Returns tt /\ status_of tr pid = Some ERROR))
  end.
Proof.
  run_analysis.
  all: split_node_lists; kill_units; cbn [fst snd].
  all: unfold is_graph_native.
  all: split; [ intros o Hin; in_cases Hin; simplify_eq;
                (split; intros Hn; [ try congruence | try congruence ]);
                first [ eexists _, _; split; [reflexivity|];
                        split; [discriminate|]; split; solve_in
                      | solve_in ] | ].
  all: split; [ intros o Hin; in_cases Hin; solve_in | ].
  all: split; [ intros o Hin; in_cases Hin; split; solve_in | ].
  all: split; [ intros e' Hin; in_cases Hin; intros o Ho; in_cases Ho | ].
  all: intros e' Hin; in_cases Hin;
       (split; [ solve_in | ]);
       cbn; intros; first [ discriminate | rewrite ?Z.eqb_refl; split; reflexivity ].
Qed.

Lemma analyze_directory_more_paths env d pid uid lang fr tr0 :
  match analyze_directory env d pid uid lang fr tr0 with
  | (_, tr', out) =>
      forall evs, tr' = tr0 ++ evs -> analysis_more pid lang evs out
  end.
Proof.
  norm_analysis.
  repeat step_with norm_analysis.
  all: tidy; intros evs Heq; apply app_inv_head in Heq; subst evs.
  all: split_node_lists; kill_units; cbn [fst snd].
  all: unfold analysis_more, is_generic_language, is_graph_native.
  all: split; [reflexivity|].
  all: split; [|split];
       [ | | intros Hg;
             first [ reflexivity
                   | rewrite ?Heqb, ?Heqb0 in Hg; cbn in Hg; discriminate Hg ] ].
  all: first
    [ (* the generic branch *)
      intros Hg;
      first [ rewrite ?Heqb, ?Heqb0 in Hg; cbn in Hg; discriminate Hg
            | (split; [reflexivity|]); (split; [cbn; lia|]);
              (split;
               [ intros Ho; first [discriminate Ho | reflexivity]
               | intros e' He Hall; cbn in He, Hall;
                 first [ discriminate He | discriminate Hall
                       | injection He as ->; reflexivity ] ]) ]
    | (* the graph-native branch *)
      intros Hn Hall;
      first [ congruence
            | cbn in Hall; discriminate Hall
            | (split; [reflexivity|]);
              first [ left; eexists _, _; (split; [reflexivity|]);
                      (split; [discriminate|]); repeat split; reflexivity
                    | right; eexists _, _; repeat split; reflexivity ] ] ].
Qed.

Lemma analyze_directory_spec2 env d pid uid lang fr tr0 :
  exists fr' evs out,
    analyze_directory env d pid uid lang fr tr0 = (fr', tr0 ++ evs, out) /\
    analysis_facts pid lang evs out /\ analysis_more pid lang evs out.
Proof.
  pose proof (analyze_directory_more_paths env d pid uid lang fr tr0) as Hmore.
  destruct (analyze_directory_spec env d pid uid lang fr tr0)
    as (fr' & evs & out & Hrun & Hfacts).
  rewrite Hrun in Hmore. eauto 10.
Qed.

Ltac step_parse2 :=
  lazymatch goal with
  | |- ?G =>
      let s := stuck_on G in
      lazymatch s with
      | G => fail "the run is over"
      | analyze_directory ?env ?d ?p ?u ?l ?f ?t =>
          let fr' := fresh "fr'" in
          let evs := fresh "evs" in
          let out := fresh "out" in
          let Hrun := fresh "Hrun" in
          let Hfacts := fresh "Hfacts" in
          let Hmore := fresh "Hmore" in
          destruct (analyze_directory_spec2 env d p u l f t)
            as (fr' & evs & out & Hrun & Hfacts & Hmore);
          rewrite Hrun; clear Hrun
      | _ => first [ is_var s; destruct s | destruct s eqn:? ]
      end
  end; norm_parse.

Ltac run_parse2 := norm_parse; repeat step_parse2; tidy.

Lemma parse_directory_exit_paths env rd uid email pid cg :
  match exec (parse_directory env rd uid email pid cg) with
  | (tr, out) =>
      (exists sts, status_writes tr = map (pair (effective_project_id tr pid)) sts) /\
      (forall v, out = Returns v ->
         res_message v = success_message /\
         exists d lang,
           setup_result tr = Some (d, res_id v) /\
           detected_language tr = Some lang /\ lang <> "other" /\
           (is_generic_language lang = true ->
            status_of tr (res_id v) = Some READY)) /\
      (forall e, out = Raises e ->
         all_returned is_error_write tr = true ->
         env_PROJECT_PATH env <> None ->
         (exists detail, e = HTTPException 500 detail) /\
         status_of tr (effective_project_id tr pid) = Some ERROR)
  end.
Proof.
  run_parse2.
  all: kill_units.
  all: unfold effective_project_id, setup_result, detected_language,
         setup_results, detections, all_returned, status_of, status_writes in *.
  all: try (unfold analysis_facts in Hfacts;
            destruct Hfacts as ((Hsetup & Hdet & _) & _ & _ & (sts & Hw & _) & _ & _ & Hoth);
            destruct Hmore as (_ & Hgen & _);
            unfold setup_results, detections, status_writes in *).
  all: cbn [flat_map app head]; rewrite ?flat_map_app;
       rewrite ?Hsetup, ?Hdet; cbn [flat_map app head].
  all: split;
       [ rewrite ?Hw;
         first [ exists []; reflexivity
               | exists [ERROR]; reflexivity
               | exists sts; rewrite ?app_nil_r; reflexivity
               | exists (sts ++ [ERROR]); rewrite map_app; reflexivity ] | ].
  all: split;
       [ intros v Hv; try discriminate Hv; injection Hv as <-;
         cbn [res_message res_id]; (split; [reflexivity|]);
         eexists _, _; (split; [reflexivity|]); (split; [reflexivity|]);
         (split;
          [ first [ intros ->; destruct (Hoth eq_refl) as (_ & _ & (? & Hr) & _)
                  | intros Hl; destruct (Hoth Hl) as (_ & _ & (? & Hr) & _) ];
            discriminate Hr
          | intros Hg; destruct (Hgen Hg) as (_ & _ & Hst & _);
            rewrite (Hst eq_refl); cbn; rewrite ?Z.eqb_refl; reflexivity ])
       | ].
  all: intros e' He Hall Hroot; try discriminate He; injection He as <-;
       try congruence.
  all: cbn in Hall; rewrite ?forallb_app in Hall; cbn in Hall;
       rewrite ?andb_true_r, ?andb_false_r in Hall; try discriminate Hall.
  all: (split; [eexists; reflexivity|]).
  all: rewrite ?Hw, ?fold_left_app; cbn; rewrite ?Z.eqb_refl; reflexivity.
Qed.

Lemma filter_outside_analysis (f : Event -> bool) (evs : Trace) :
  forallb is_analysis_event evs = true ->
  (forall ev, f ev = true -> is_analysis_event ev = false) ->
  List.filter f evs = [].
Proof.
  intros Hall Hf. induction evs as [|ev evs IH]; [reflexivity|].
  cbn in Hall. apply andb_true_iff in Hall as [Hev Hall].
  cbn. destruct (f ev) eqn:E; [|auto].
  rewrite (Hf ev E) in Hev. discriminate.
Qed.

Lemma analysis_no_cleanup evs :
  forallb is_analysis_event evs = true -> List.filter is_cleanup evs = [].
Proof. intros H. apply filter_outside_analysis; [exact H|]. intros []; cbn; congruence. Qed.

Lemma analysis_no_acquisition evs :
  forallb is_analysis_event evs = true -> List.filter is_acquisition evs = [].
Proof. intros H. apply filter_outside_analysis; [exact H|]. intros []; cbn; congruence. Qed.

Lemma parse_directory_guard_paths env rd uid email pid cg :
  match exec (parse_directory env rd uid email pid cg) with
  | (tr, out) =>
      (cg = false -> List.filter is_cleanup tr = []) /\
      (length (List.filter is_cleanup tr) <= 1)%nat /\
      (cg = true -> List.filter is_cleanup_done tr = [] ->
         List.filter is_acquisition tr = [] /\ exists e, out = Raises e) /\
      (setup_result tr = None ->
         path_checks tr = [] /\ removed_dirs tr = [] /\
         detected_language tr = None /\ exists e, out = Raises e) /\
      (forall d, path_checks tr = [(d, true)] -> env_PROJECT_PATH env = None ->
         out = Raises (TypeError startswith_none_message) /\ removed_dirs tr = [])
  end.
Proof.
  run_parse2.
  all: kill_units.
  all: try (unfold analysis_facts in Hfacts;
            destruct Hfacts as ((_ & _ & Hrm & Hpc) & _);
            destruct Hmore as (Hall & _);
            pose proof (analysis_no_cleanup _ Hall) as Hnc).
  all: unfold setup_result, detected_language, setup_results, detections,
         path_checks, removed_dirs in *.
  all: cbn [flat_map app head List.filter is_cleanup is_cleanup_done is_acquisition];
       rewrite ?flat_map_app, ?List.filter_app, ?Hrm, ?Hpc, ?Hnc;
       cbn [flat_map app head List.filter is_cleanup length].
  all: (split; [ intros ?; first [discriminate | reflexivity] | ]).
  all: (split; [ lia | ]).
  all: (split; [ intros Hcg Hdone; first [discriminate Hcg | discriminate Hdone
                                       | split; [reflexivity | eexists; reflexivity] ] | ]).
  all: (split; [ intros Hs; first [discriminate Hs
                                 | repeat split; try reflexivity; eexists; reflexivity ] | ]).
  all: intros d' Hd Hroot; first [discriminate Hd | congruence | split; reflexivity].
Qed.

Lemma parse_directory_outcome_paths env rd uid email pid cg :
  match exec (parse_directory env rd uid email pid cg) with
  | (tr, out) =>
      (forall d p lang,
         setup_result tr = Some (d, p) -> detected_language tr = Some lang ->
         is_graph_native lang = true ->
         all_returned every_call tr = true -> env_PROJECT_PATH env <> None ->
         out = Returns {| res_message := success_message; res_id := p |} /\
         ((exists n r,
             last (build_outcomes tr) = Some (Returns (n, r)) /\ n <> [] /\
             insert_events tr =
               [EvCreateNodes n (Returns tt); EvCreateEdges r (Returns tt)] /\
             inference_outcomes tr = [Returns tt] /\
             status_of tr p = Some READY) \/
          (exists r0 r1,
             build_outcomes tr = [Returns ([], r0); Returns ([], r1)] /\
             insert_events tr = [] /\ inference_outcomes tr = [] /\
             status_of tr p = Some ERROR))) /\
      (forall d p lang e,
         setup_result tr = Some (d, p) -> detected_language tr = Some lang ->
         is_generic_language lang = true ->
         inference_outcomes tr = [Raises e] ->
         all_returned is_generic_finalizer tr = true ->
         all_returned is_error_write tr = true ->
         env_PROJECT_PATH env <> None ->
         out = Raises (HTTPException 500 (surfaced_detail env p e)) /\
         status_of tr p = Some ERROR)
  end.
Proof.
  unfold success_message.
  run_parse2.
  all: kill_units.
  all: try (unfold analysis_facts in Hfacts;
            destruct Hfacts as (_ & _ & _ & (sts & Hw & _) & _);
            destruct Hmore as (_ & Hgen & Hnat & _)).
  all: unfold setup_result, detected_language, setup_results, detections,
         all_returned, status_of, status_writes, build_outcomes, insert_events,
         inference_outcomes, surfaced_detail in *.
  all: cbn [flat_map app head List.filter is_insert forallb];
       rewrite ?flat_map_app, ?List.filter_app, ?forallb_app;
       cbn [flat_map app head List.filter is_insert forallb]; rewrite ?app_nil_r.
  all: split.
  all: first
    [ (* all collaborators returned, graph-native *)
      intros d' p' lang' Hs Hd Hn Hall Hroot; try discriminate Hs;
      cbn in Hall; rewrite ?andb_true_r in Hall; try discriminate Hall;
      simplify_eq; try congruence;
      try (apply andb_true_iff in Hall as [Hall _]);
      (destruct (Hnat Hn Hall) as (Ho & Hcase); try discriminate Ho;
       (split; [reflexivity|]);
       (destruct Hcase as [(n & r & Hl & Hne & Hi & Hinf & Hst)
                          |(r0 & r1 & Hb & Hi & Hinf & Hst)];
        [ left; exists n, r | right; exists r0, r1 ]);
       rewrite ?Hl, ?Hb, ?Hi, ?Hinf, ?Hst; cbn; rewrite ?Z.eqb_refl;
       repeat split; solve [reflexivity | assumption])
    | (* the generic branch, enrichment failed *)
      intros d' p' lang' e' Hs Hd Hg Hinf Hfin Herr Hroot; try discriminate Hs;
      simplify_eq; try discriminate Hinf;
      cbn in Hfin, Herr; rewrite ?andb_true_r in Hfin, Herr;
      try discriminate Herr; try congruence;
      try (apply andb_true_iff in Hfin as [Hfin _]);
      try (apply andb_true_iff in Herr as [_ Herr]; try discriminate Herr);
      (destruct (Hgen Hg) as (_ & _ & _ & Hraise);
       pose proof (Hraise e' Hinf Hfin) as Ho; simplify_eq; try congruence;
       rewrite ?Heqb;
       (split; [reflexivity|]);
       rewrite ?Hw, ?fold_left_app; cbn; rewrite ?Z.eqb_refl; reflexivity)
    ].
Qed.

Lemma parse_directory_cleanup_paths env rd uid email pid cg :
  match exec (parse_directory env rd uid email pid cg) with
  | (tr, out) =>
      (forall c,
         cg = true -> head tr = Some (EvGetNeo4jConfig (Returns c)) ->
         List.filter is_cleanup_done tr = [] ->
         all_returned is_error_write tr = true ->
         out = Raises (HTTPException 500
                         (surfaced_detail env pid
                            (HTTPException 500 "Internal server error"))) /\
         status_writes tr = [(pid, ERROR)]) /\
      (forall lang, detected_language tr = Some lang ->
                    is_generic_language lang = false ->
                    List.filter is_service_close tr = []) /\
      (detected_language tr = None -> List.filter is_service_close tr = [])
  end.
Proof.
  run_parse2.
  all: kill_units.
  all: try (unfold analysis_facts in Hfacts;
            destruct Hfacts as ((_ & Hdet & _) & _);
            destruct Hmore as (_ & _ & _ & Hclose)).
  all: unfold detected_language, detections, all_returned, status_writes,
         surfaced_detail in *.
  all: cbn [flat_map app head List.filter is_cleanup_done is_service_close forallb];
       rewrite ?flat_map_app, ?List.filter_app, ?forallb_app, ?Hdet;
       cbn [flat_map app head List.filter is_cleanup_done is_service_close forallb].
  all: (split;
        [ intros c Hcg Hh Hdone Herr;
          first [ discriminate Hcg | discriminate Hh | discriminate Hdone
                | cbn in Herr; discriminate Herr
                | discriminate Heqb
                | split; reflexivity ] | ]).
  all: (split;
        [ intros lang' Hd Hg;
          first [ discriminate Hd
                | simplify_eq; rewrite (Hclose Hg); reflexivity ]
        | intros Hd; first [ reflexivity | discriminate Hd ] ]).
Qed.

(** ** Inside analyze_directory *)

Module AnalysisProofs.

(** X1: the graph-native branch creates its two indices before it enters
    its [try].  When the second index was created, the graph manager is
    closed exactly once and closing it is the last call of the branch,
    whatever happened in between.  When it was not, the manager is never
    closed and the branch raises. *)
Theorem graph_manager_closed_once_indices_exist (env : Env)
    (extracted_dir : string) (project_id : Z) (user_id language : string)
    (Hnative : is_graph_native language = true) :
  let r := run_analyze_directory env extracted_dir project_id user_id language in
  (In (EvCreateNodeIdIndex (Returns tt)) r.1 ->
   exists o, List.filter is_manager_close r.1 = [EvGraphManagerClose o] /\
             last r.1 = Some (EvGraphManagerClose o)) /\
  (~ In (EvCreateNodeIdIndex (Returns tt)) r.1 ->
   List.filter is_manager_close r.1 = [] /\ exists e, r.2 = Raises e).
Proof.
  pose proof (analyze_directory_release_paths env extracted_dir project_id
                user_id language) as H.
  destruct (run_analyze_directory _ _ _ _ _) as [tr out].
  exact (proj1 H Hnative).
Qed.

Lemma graph_manager_closed_once_indices_exist_witness :
  let ok := run_analyze_directory env_python_engine_down work_dir 7 "u1" "python" in
  let ko := run_analyze_directory env_index_fails work_dir 7 "u1" "python" in
  (exists o, List.filter is_manager_close ok.1 = [EvGraphManagerClose o] /\
             last ok.1 = Some (EvGraphManagerClose o)) /\
  (List.filter is_manager_close ko.1 = [] /\ exists e, ko.2 = Raises e).
Proof.
  intros ok ko.
  destruct (graph_manager_closed_once_indices_exist env_python_engine_down
              work_dir 7 "u1" "python" eq_refl) as (Hok & _).
  destruct (graph_manager_closed_once_indices_exist env_index_fails
              work_dir 7 "u1" "python" eq_refl) as (_ & Hko).
  split.
  - apply Hok. vm_compute. tauto.
  - apply Hko. vm_compute. intuition discriminate.
Defined.

(** X2: in the generic branch the [finally] clause closes [service], a name
    bound inside the [try].  When the service was constructed it is closed
    exactly once.  When it never was, because the configuration could not
    be read or the constructor failed, nothing is closed and the branch
    raises [UnboundLocalError] in place of the exception that stopped it. *)
Theorem generic_service_closed_or_unbound (env : Env)
    (extracted_dir : string) (project_id : Z) (user_id language : string)
    (Hgeneric : is_generic_language language = true) :
  let r := run_analyze_directory env extracted_dir project_id user_id language in
  (forall uri username password,
     In (EvCodeGraphService uri username password (Returns tt)) r.1 ->
     exists o, List.filter is_service_close r.1 = [EvServiceClose o]) /\
  ((forall uri username password,
      ~ In (EvCodeGraphService uri username password (Returns tt)) r.1) ->
   List.filter is_service_close r.1 = [] /\
   r.2 = Raises (UnboundLocalError unbound_service_message)).
Proof.
  pose proof (analyze_directory_release_paths env extracted_dir project_id
                user_id language) as H.
  destruct (run_analyze_directory _ _ _ _ _) as [tr out].
  exact (proj2 H Hgeneric).
Qed.

Lemma generic_service_closed_or_unbound_witness :
  let ok := run_analyze_directory env_java_engine_down work_dir 7 "u1" "java" in
  let ko := run_analyze_directory env_no_config work_dir 7 "u1" "java" in
  (exists o, List.filter is_service_close ok.1 = [EvServiceClose o]) /\
  ko.1 = [EvGetNeo4jConfig (Raises (KeyError "NEO4J_URI"))] /\
  ko.2 = Raises (UnboundLocalError unbound_service_message).
Proof.
  intros ok ko.
  destruct (generic_service_closed_or_unbound env_java_engine_down
              work_dir 7 "u1" "java" eq_refl) as (Hok & _).
  destruct (generic_service_closed_or_unbound env_no_config
              work_dir 7 "u1" "java" eq_refl) as (_ & Hko).
  split.
  - apply (Hok "bolt://localhost:7687" "neo4j" "secret"). vm_compute. tauto.
  - split; [reflexivity|]. apply Hko. intros uri username password.
    vm_compute. intuition discriminate.
Defined.

(** X3: status [PARSED] is written only once the graph is in the store.  In
    the graph-native branch the last answer of the builder had nodes, and
    these nodes and the edges of the same answer were inserted, both
    successfully.  In the generic branch [create_and_store_graph] returned
    for this directory, project and user. *)
Theorem parsed_only_after_graph_stored (env : Env)
    (extracted_dir : string) (project_id : Z) (user_id language : string)
    (o : Outcome unit) :
  let r := run_analyze_directory env extracted_dir project_id user_id language in
  In (EvUpdateProjectStatus project_id PARSED o) r.1 ->
  (is_graph_native language = true ->
   exists n e,
     last (build_outcomes r.1) = Some (Returns (n, e)) /\ n <> [] /\
     In (EvCreateNodes n (Returns tt)) r.1 /\
     In (EvCreateEdges e (Returns tt)) r.1) /\
  (is_graph_native language = false ->
   In (EvCreateAndStoreGraph extracted_dir project_id user_id (Returns tt)) r.1).
Proof.
  pose proof (analyze_directory_order_paths env extracted_dir project_id
                user_id language) as H.
  destruct (run_analyze_directory _ _ _ _ _) as [tr out].
  exact (proj1 H o).
Qed.

Lemma parsed_only_after_graph_stored_witness :
  let native := run_analyze_directory env_retry work_dir 7 "u1" "python" in
  let generic := run_analyze_directory env_java work_dir 7 "u1" "java" in
  (build_outcomes native.1 =
     [Returns ([], []); Returns (["a.py"; "a.py:f"], [("a.py", "a.py:f")])] /\
   exists n e,
     last (build_outcomes native.1) = Some (Returns (n, e)) /\ n <> [] /\
     In (EvCreateNodes n (Returns tt)) native.1 /\
     In (EvCreateEdges e (Returns tt)) native.1) /\
  In (EvCreateAndStoreGraph work_dir 7 "u1" (Returns tt)) generic.1.
Proof.
  intros native generic. split; [split; [reflexivity|]|].
  - apply (parsed_only_after_graph_stored env_retry work_dir 7 "u1" "python"
             (Returns tt)); [|reflexivity].
    vm_compute. tauto.
  - apply (parsed_only_after_graph_stored env_java work_dir 7 "u1" "java"
             (Returns tt)); [|reflexivity].
    vm_compute. tauto.
Defined.

(** X4: the enrichment is started only after the [PARSED] write was
    accepted, and status [READY] is written only after the enrichment and
    the statistics logging that follows it both returned. *)
Theorem enrichment_between_parsed_and_ready (env : Env)
    (extracted_dir : string) (project_id : Z) (user_id language : string) :
  let r := run_analyze_directory env extracted_dir project_id user_id language in
  (forall o, In (EvRunInference project_id o) r.1 ->
     In (EvUpdateProjectStatus project_id PARSED (Returns tt)) r.1) /\
  (forall o, In (EvUpdateProjectStatus project_id READY o) r.1 ->
     In (EvRunInference project_id (Returns tt)) r.1 /\
     In (EvLogGraphStats project_id (Returns tt)) r.1).
Proof.
  pose proof (analyze_directory_order_paths env extracted_dir project_id
                user_id language) as H.
  destruct (run_analyze_directory _ _ _ _ _) as [tr out].
  split; apply H.
Qed.

Lemma enrichment_between_parsed_and_ready_witness :
  let failed := run_analyze_directory env_java_engine_down work_dir 7 "u1" "java" in
  let done := run_analyze_directory env_java work_dir 7 "u1" "java" in
  In (EvUpdateProjectStatus 7 PARSED (Returns tt)) failed.1 /\
  In (EvRunInference 7 (Returns tt)) done.1 /\
  In (EvLogGraphStats 7 (Returns tt)) done.1.
Proof.
  intros failed done.
  destruct (enrichment_between_parsed_and_ready env_java_engine_down work_dir 7
              "u1" "java") as (Hstart & _).
  destruct (enrichment_between_parsed_and_ready env_java work_dir 7
              "u1" "java") as (_ & Hready).
  split.
  - apply (Hstart (Raises engine_down)). vm_compute. tauto.
  - apply (Hready (Returns tt)). vm_compute. tauto.
Defined.

(** X5: telemetry is on the critical path of the graph-native branch.  When
    sending the [Parsed] event raises, the enrichment is never started.
    When sending the [Ready] event raises, status [READY] has already been
    accepted, and once the error handler and the [finally] clause return,
    the branch returns normally with the project persisted as [ERROR]. *)
Theorem telemetry_failure_fails_project (env : Env)
    (extracted_dir : string) (project_id : Z) (user_id language : string)
    (e : exn) :
  let r := run_analyze_directory env extracted_dir project_id user_id language in
  (In (EvSendEvent user_id project_id "Parsed" (Raises e)) r.1 ->
   forall o, ~ In (EvRunInference project_id o) r.1) /\
  (In (EvSendEvent user_id project_id "Ready" (Raises e)) r.1 ->
   In (EvUpdateProjectStatus project_id READY (Returns tt)) r.1 /\
   (all_returned is_graph_native_recovery r.1 = true ->
    r.2 = Returns tt /\ status_of r.1 project_id = Some ERROR)).
Proof.
  pose proof (analyze_directory_order_paths env extracted_dir project_id
                user_id language) as H.
  destruct (run_analyze_directory _ _ _ _ _) as [tr out].
  destruct H as (_ & _ & _ & Hparsed & Hready).
  split; [apply Hparsed | apply Hready].
Qed.

Lemma telemetry_failure_fails_project_witness :
  let at_parsed := run_analyze_directory (env_telemetry_down_at "Parsed")
                     work_dir 7 "u1" "python" in
  let at_ready := run_analyze_directory (env_telemetry_down_at "Ready")
                    work_dir 7 "u1" "python" in
  inference_outcomes at_parsed.1 = [] /\
  (forall o, ~ In (EvRunInference 7 o) at_parsed.1) /\
  In (EvUpdateProjectStatus 7 READY (Returns tt)) at_ready.1 /\
  at_ready.2 = Returns tt /\ status_of at_ready.1 7 = Some ERROR.
Proof.
  intros at_parsed at_ready.
  destruct (telemetry_failure_fails_project (env_telemetry_down_at "Parsed")
              work_dir 7 "u1" "python" telemetry_down) as (Hparsed & _).
  destruct (telemetry_failure_fails_project (env_telemetry_down_at "Ready")
              work_dir 7 "u1" "python" telemetry_down) as (_ & Hready).
  split; [reflexivity|]. split.
  - apply Hparsed. vm_compute. tauto.
  - destruct Hready as (Hacc & Hend); [vm_compute; tauto|].
    split; [exact Hacc|]. apply Hend. reflexivity.
Defined.

(** X6: the generic branch never calls the graph builder and never retries:
    [create_and_store_graph] is called at most once.  When the branch
    returns, the status writes of the run are [PARSED] and then [READY]. *)
Theorem generic_branch_single_pass (env : Env)
    (extracted_dir : string) (project_id : Z) (user_id language : string)
    (Hgeneric : is_generic_language language = true) :
  let r := run_analyze_directory env extracted_dir project_id user_id language in
  build_outcomes r.1 = [] /\
  (length (List.filter is_create_and_store r.1) <= 1)%nat /\
  (r.2 = Returns tt ->
   status_writes r.1 = [(project_id, PARSED); (project_id, READY)]).
Proof.
  unfold run_analyze_directory, exec, call.
  destruct (analyze_directory_spec2 env extracted_dir project_id user_id
              language {| v_service := false |} [])
    as (fr' & evs & out & -> & _ & _ & Hgen & _).
  cbn [app fst snd].
  destruct (Hgen Hgeneric) as (Hb & Hc & Hs & _). auto.
Qed.

Lemma generic_branch_single_pass_witness :
  let r := run_analyze_directory env_java work_dir 7 "u1" "java" in
  build_outcomes r.1 = [] /\
  (length (List.filter is_create_and_store r.1) <= 1)%nat /\
  status_writes r.1 = [(7, PARSED); (7, READY)].
Proof.
  intros r.
  destruct (generic_branch_single_pass env_java work_dir 7 "u1" "java" eq_refl)
    as (Hb & Hc & Hs).
  split; [exact Hb|]. split; [exact Hc|]. apply Hs. reflexivity.
Defined.

(** X7: [analyze_directory] calls nothing but the graph store, the graph
    builder, the project service, the telemetry client and the inference
    service: it never clones, sets up or detects, never touches the file
    system and never queries the vector index. *)
Theorem analyze_directory_stays_in_scope (env : Env)
    (extracted_dir : string) (project_id : Z) (user_id language : string) :
  forallb is_analysis_event
    (run_analyze_directory env extracted_dir project_id user_id language).1 = true.
Proof.
  unfold run_analyze_directory, exec, call.
  destruct (analyze_directory_spec2 env extracted_dir project_id user_id
              language {| v_service := false |} [])
    as (fr' & evs & out & -> & _ & Hin & _).
  exact Hin.
Qed.

End AnalysisProofs.

(** ** Exits of parse_directory *)

Module OrchestrationProofs.

(** X8: every status write of a run is for one project: the id that
    [setup_project_directory] returned, or the id the caller passed when
    the run never got that far.  The caller's id is not used again once
    setup has answered. *)
Theorem status_writes_single_project (env : Env) (repo_details : ParsingRequest)
    (user_id user_email : string) (project_id : Z) (cleanup_graph : bool) :
  let tr := (exec (parse_directory env repo_details user_id user_email
                     project_id cleanup_graph)).1 in
  exists statuses,
    status_writes tr = map (pair (effective_project_id tr project_id)) statuses.
Proof.
  pose proof (parse_directory_exit_paths env repo_details user_id user_email
                project_id cleanup_graph) as H.
  destruct (exec _) as [tr out]. exact (proj1 H).
Qed.

(** X9: when [parse_directory] returns, it returns the fixed success
    message and the id that [setup_project_directory] returned; a language
    was detected and it is not [other]; and for a language of the generic
    branch the project is persisted as [READY]. *)
Theorem returned_value_shape (env : Env) (repo_details : ParsingRequest)
    (user_id user_email : string) (project_id : Z) (cleanup_graph : bool)
    (v : ParseResult) :
  let r := exec (parse_directory env repo_details user_id user_email
                   project_id cleanup_graph) in
  r.2 = Returns v ->
  res_message v = success_message /\
  exists extracted_dir language,
    setup_result r.1 = Some (extracted_dir, res_id v) /\
    detected_language r.1 = Some language /\ language <> "other" /\
    (is_generic_language language = true ->
     status_of r.1 (res_id v) = Some READY).
Proof.
  pose proof (parse_directory_exit_paths env repo_details user_id user_email
                project_id cleanup_graph) as H.
  destruct (exec _) as [tr out]. exact (proj1 (proj2 H) v).
Qed.

Lemma returned_value_shape_witness :
  let r := exec (parse_directory env_java sample_request "u1" "u1@acme.io" 7 true) in
  r.2 = Returns {| res_message := success_message; res_id := 7 |} /\
  exists extracted_dir language,
    setup_result r.1 = Some (extracted_dir, 7) /\
    detected_language r.1 = Some language /\ language <> "other" /\
    (is_generic_language language = true -> status_of r.1 7 = Some READY).
Proof.
  intros r. split; [reflexivity|].
  exact (proj2 (returned_value_shape env_java sample_request "u1" "u1@acme.io" 7
                  true {| res_message := success_message; res_id := 7 |}
                  eq_refl)).
Defined.

(** X10: when [parse_directory] raises, its error-status write was accepted
    and the project-storage root is configured, the exception is an
    [HTTPException] with status code 500 and the project is persisted as
    [ERROR]: no other exception type leaves the function. *)
Theorem raised_run_is_http_500 (env : Env) (repo_details : ParsingRequest)
    (user_id user_email : string) (project_id : Z) (cleanup_graph : bool)
    (e : exn) :
  let r := exec (parse_directory env repo_details user_id user_email
                   project_id cleanup_graph) in
  r.2 = Raises e ->
  all_returned is_error_write r.1 = true ->
  env_PROJECT_PATH env <> None ->
  (exists detail, e = HTTPException 500 detail) /\
  status_of r.1 (effective_project_id r.1 project_id) = Some ERROR.
Proof.
  pose proof (parse_directory_exit_paths env repo_details user_id user_email
                project_id cleanup_graph) as H.
  destruct (exec _) as [tr out]. exact (proj2 (proj2 H) e).
Qed.

Lemma raised_run_is_http_500_witness :
  let r := exec (parse_directory env_clone_fails sample_request "u1"
                   "u1@acme.io" 7 false) in
  (exists detail, r.2 = Raises (HTTPException 500 detail)) /\
  status_of r.1 7 = Some ERROR.
Proof.
  intros r.
  destruct (raised_run_is_http_500 env_clone_fails sample_request "u1"
              "u1@acme.io" 7 false
              (HTTPException 500
                 ("404: Repository not found" +:+ newline +:+ "Traceback: " +:+
                  "Traceback (most recent call last): ..."))
              eq_refl eq_refl ltac:(discriminate)) as (_ & Hstatus).
  split; [eexists; reflexivity | exact Hstatus].
Defined.

(** X11: the stale graph is deleted at most once per run and only when the
    caller asked for it; and with [cleanup_graph] set, a run in which the
    deletion did not complete raises without having cloned, set up a
    directory or detected a language. *)
Theorem cleanup_guards_acquisition (env : Env) (repo_details : ParsingRequest)
    (user_id user_email : string) (project_id : Z) (cleanup_graph : bool) :
  let r := exec (parse_directory env repo_details user_id user_email
                   project_id cleanup_graph) in
  (cleanup_graph = false -> List.filter is_cleanup r.1 = []) /\
  (length (List.filter is_cleanup r.1) <= 1)%nat /\
  (cleanup_graph = true -> List.filter is_cleanup_done r.1 = [] ->
   List.filter is_acquisition r.1 = [] /\ exists e, r.2 = Raises e).
Proof.
  pose proof (parse_directory_guard_paths env repo_details user_id user_email
                project_id cleanup_graph) as H.
  destruct (exec _) as [tr out].
  destruct H as (H1 & H2 & H3 & _). auto.
Qed.

Lemma cleanup_guards_acquisition_witness :
  let off := exec (parse_directory env_cleanup_fails sample_request "u1"
                     "u1@acme.io" 7 false) in
  let on := exec (parse_directory env_cleanup_fails sample_request "u1"
                    "u1@acme.io" 7 true) in
  (List.filter is_cleanup off.1 = [] /\
   off.2 = Returns {| res_message := success_message; res_id := 7 |}) /\
  (List.filter is_acquisition on.1 = [] /\ exists e, on.2 = Raises e).
Proof.
  intros off on.
  destruct (cleanup_guards_acquisition env_cleanup_fails sample_request "u1"
              "u1@acme.io" 7 false) as (Hoff & _).
  destruct (cleanup_guards_acquisition env_cleanup_fails sample_request "u1"
              "u1@acme.io" 7 true) as (_ & _ & Hon).
  split.
  - split; [exact (Hoff eq_refl) | reflexivity].
  - exact (Hon eq_refl eq_refl).
Defined.

(** X12: a run in which [setup_project_directory] did not return leaves the
    file system alone: nothing is checked for existence, nothing is
    removed, no language is detected, and the run raises. *)
Theorem no_setup_no_removal (env : Env) (repo_details : ParsingRequest)
    (user_id user_email : string) (project_id : Z) (cleanup_graph : bool) :
  let r := exec (parse_directory env repo_details user_id user_email
                   project_id cleanup_graph) in
  setup_result r.1 = None ->
  path_checks r.1 = [] /\ removed_dirs r.1 = [] /\
  detected_language r.1 = None /\ exists e, r.2 = Raises e.
Proof.
  pose proof (parse_directory_guard_paths env repo_details user_id user_email
                project_id cleanup_graph) as H.
  destruct (exec _) as [tr out].
  destruct H as (_ & _ & _ & H4 & _). exact H4.
Qed.

Lemma no_setup_no_removal_witness :
  let r := exec (parse_directory env_clone_fails sample_request "u1"
                   "u1@acme.io" 7 true) in
  path_checks r.1 = [] /\ removed_dirs r.1 = [] /\
  detected_language r.1 = None /\ exists e, r.2 = Raises e.
Proof.
  exact (no_setup_no_removal env_clone_fails sample_request "u1" "u1@acme.io" 7
           true eq_refl).
Defined.

(** X13: with no project-storage root configured, a run whose working
    directory exists ends in the [TypeError] of [startswith(None)] raised
    by the [finally] clause, whatever the run had returned or raised
    before, and the directory is not removed. *)
Theorem unset_root_raises_type_error (env : Env) (repo_details : ParsingRequest)
    (user_id user_email : string) (project_id : Z) (cleanup_graph : bool)
    (extracted_dir : string) :
  let r := exec (parse_directory env repo_details user_id user_email
                   project_id cleanup_graph) in
  path_checks r.1 = [(extracted_dir, true)] ->
  env_PROJECT_PATH env = None ->
  r.2 = Raises (TypeError startswith_none_message) /\ removed_dirs r.1 = [].
Proof.
  pose proof (parse_directory_guard_paths env repo_details user_id user_email
                project_id cleanup_graph) as H.
  destruct (exec _) as [tr out].
  destruct H as (_ & _ & _ & _ & H5). exact (H5 extracted_dir).
Qed.

Lemma unset_root_raises_type_error_witness :
  let r := exec (parse_directory env_no_root sample_request "u1"
                   "u1@acme.io" 7 false) in
  status_of r.1 7 = Some READY /\
  r.2 = Raises (TypeError startswith_none_message) /\ removed_dirs r.1 = [].
Proof.
  intros r. split; [reflexivity|].
  exact (unset_root_raises_type_error env_no_root sample_request "u1"
           "u1@acme.io" 7 false work_dir eq_refl eq_refl).
Defined.

(** X14: the [finally] clause removes nothing but the working directory of
    the run, and only if it exists and its path starts with the configured
    root; and once the run has a non-empty working directory that exists
    and starts with the root, the directory is removed, exactly once,
    whether the run returns or raises. *)
Theorem working_directory_removed_on_every_exit (env : Env)
    (repo_details : ParsingRequest) (user_id user_email : string)
    (project_id : Z) (cleanup_graph : bool) :
  let tr := (exec (parse_directory env repo_details user_id user_email
                     project_id cleanup_graph)).1 in
  (forall d, In d (removed_dirs tr) ->
     exists root pid,
       env_PROJECT_PATH env = Some root /\ startswith d root = true /\
       setup_result tr = Some (d, pid) /\ path_checks tr = [(d, true)]) /\
  (forall d pid root,
     setup_result tr = Some (d, pid) -> d <> "" ->
     path_checks tr = [(d, true)] ->
     env_PROJECT_PATH env = Some root -> startswith d root = true ->
     removed_dirs tr = [d]).
Proof.
  pose proof (ParsingServiceProofs.parse_directory_removal_paths env
                repo_details user_id user_email project_id cleanup_graph) as H.
  destruct (exec _) as [tr out]. exact H.
Qed.

Lemma working_directory_removed_on_every_exit_witness :
  let returned := (exec (parse_directory env_python sample_request "u1"
                           "u1@acme.io" 7 false)).1 in
  let raised := exec (parse_directory env_java_engine_down sample_request "u1"
                        "u1@acme.io" 7 false) in
  removed_dirs returned = [work_dir] /\
  (exists e, raised.2 = Raises e) /\ removed_dirs raised.1 = [work_dir].
Proof.
  intros returned raised.
  destruct (working_directory_removed_on_every_exit env_python sample_request
              "u1" "u1@acme.io" 7 false) as (_ & Hret).
  destruct (working_directory_removed_on_every_exit env_java_engine_down
              sample_request "u1" "u1@acme.io" 7 false) as (_ & Hrai).
  split; [|split].
  - apply (Hret work_dir 7 root_dir); first [reflexivity | discriminate].
  - eexists. reflexivity.
  - apply (Hrai work_dir 7 root_dir); first [reflexivity | discriminate].
Defined.

(** X15: a run on a graph-native language in which every collaborator
    answered returns the success value, and ends in one of two ways.
    Either the last answer of the builder had nodes, exactly these nodes
    and the edges of that answer were inserted, the enrichment ran once and
    the project is [READY]; or the builder answered twice without a node,
    nothing was inserted, the enrichment never ran and the project is
    [ERROR]. *)
Theorem graph_native_run_all_answered (env : Env) (repo_details : ParsingRequest)
    (user_id user_email : string) (project_id : Z) (cleanup_graph : bool)
    (extracted_dir : string) (pid : Z) (language : string) :
  let r := exec (parse_directory env repo_details user_id user_email
                   project_id cleanup_graph) in
  setup_result r.1 = Some (extracted_dir, pid) ->
  detected_language r.1 = Some language ->
  is_graph_native language = true ->
  all_returned every_call r.1 = true ->
  env_PROJECT_PATH env <> None ->
  r.2 = Returns {| res_message := success_message; res_id := pid |} /\
  ((exists n e,
      last (build_outcomes r.1) = Some (Returns (n, e)) /\ n <> [] /\
      insert_events r.1 =
        [EvCreateNodes n (Returns tt); EvCreateEdges e (Returns tt)] /\
      inference_outcomes r.1 = [Returns tt] /\
      status_of r.1 pid = Some READY) \/
   (exists e0 e1,
      build_outcomes r.1 = [Returns ([], e0); Returns ([], e1)] /\
      insert_events r.1 = [] /\ inference_outcomes r.1 = [] /\
      status_of r.1 pid = Some ERROR)).
Proof.
  pose proof (parse_directory_outcome_paths env repo_details user_id user_email
                project_id cleanup_graph) as H.
  destruct (exec _) as [tr out]. exact (proj1 H extracted_dir pid language).
Qed.

Lemma graph_native_run_all_answered_witness :
  let found := exec (parse_directory env_retry sample_request "u1"
                       "u1@acme.io" 7 true) in
  let empty := exec (parse_directory env_empty_graph sample_request "u1"
                       "u1@acme.io" 7 true) in
  (found.2 = Returns {| res_message := success_message; res_id := 7 |} /\
   status_of found.1 7 = Some READY) /\
  (empty.2 = Returns {| res_message := success_message; res_id := 7 |} /\
   status_of empty.1 7 = Some ERROR).
Proof.
  intros found empty.
  destruct (graph_native_run_all_answered env_retry sample_request "u1"
              "u1@acme.io" 7 true work_dir 7 "python"
              eq_refl eq_refl eq_refl eq_refl ltac:(discriminate))
    as (Hfound & _).
  destruct (graph_native_run_all_answered env_empty_graph sample_request "u1"
              "u1@acme.io" 7 true work_dir 7 "python"
              eq_refl eq_refl eq_refl eq_refl ltac:(discriminate))
    as (Hempty & _).
  split; (split; [assumption | reflexivity]).
Defined.

(** X16: in the generic branch a failed enrichment reaches the caller: when
    [run_inference] raised [e], the [finally] clause of the branch
    completed, the error-status write was accepted and the project-storage
    root is configured, [parse_directory] raises the [HTTPException] 500
    built from [e] and the project is persisted as [ERROR]. *)
Theorem generic_enrichment_failure_surfaces (env : Env)
    (repo_details : ParsingRequest) (user_id user_email : string)
    (project_id : Z) (cleanup_graph : bool)
    (extracted_dir : string) (pid : Z) (language : string) (e : exn) :
  let r := exec (parse_directory env repo_details user_id user_email
                   project_id cleanup_graph) in
  setup_result r.1 = Some (extracted_dir, pid) ->
  detected_language r.1 = Some language ->
  is_generic_language language = true ->
  inference_outcomes r.1 = [Raises e] ->
  all_returned is_generic_finalizer r.1 = true ->
  all_returned is_error_write r.1 = true ->
  env_PROJECT_PATH env <> None ->
  r.2 = Raises (HTTPException 500 (surfaced_detail env pid e)) /\
  status_of r.1 pid = Some ERROR.
Proof.
  pose proof (parse_directory_outcome_paths env repo_details user_id user_email
                project_id cleanup_graph) as H.
  destruct (exec _) as [tr out]. exact (proj2 H extracted_dir pid language e).
Qed.

Lemma generic_enrichment_failure_surfaces_witness :
  let r := exec (parse_directory env_java_engine_down sample_request "u1"
                   "u1@acme.io" 7 false) in
  r.2 = Raises (HTTPException 500
                  (surfaced_detail env_java_engine_down 7 engine_down)) /\
  status_of r.1 7 = Some ERROR.
Proof.
  exact (generic_enrichment_failure_surfaces env_java_engine_down sample_request
           "u1" "u1@acme.io" 7 false work_dir 7 "java" engine_down
           eq_refl eq_refl eq_refl eq_refl eq_refl eq_refl ltac:(discriminate)).
Defined.

(** X23: when the caller asked for the cleanup, the configuration was read
    but the deletion of the stale graph did not complete, the failure is
    first replaced by [HTTPException(500, Internal server error)] and then
    wrapped once more by the [except Exception] of [parse_directory]: the
    caller gets an [HTTPException] 500 whose detail starts with the text of
    the inner one, and [ERROR] is the only status written, for the id the
    caller passed. *)
Theorem cleanup_failure_wrapped_twice (env : Env) (repo_details : ParsingRequest)
    (user_id user_email : string) (project_id : Z)
    (neo4j_config : gmap string string) :
  let r := exec (parse_directory env repo_details user_id user_email
                   project_id true) in
  head r.1 = Some (EvGetNeo4jConfig (Returns neo4j_config)) ->
  List.filter is_cleanup_done r.1 = [] ->
  all_returned is_error_write r.1 = true ->
  r.2 = Raises (HTTPException 500
                  (surfaced_detail env project_id
                     (HTTPException 500 "Internal server error"))) /\
  status_writes r.1 = [(project_id, ERROR)].
Proof.
  pose proof (parse_directory_cleanup_paths env repo_details user_id user_email
                project_id true) as H.
  destruct (exec _) as [tr out]. exact (proj1 H neo4j_config eq_refl).
Qed.

Lemma cleanup_failure_wrapped_twice_witness :
  let r := exec (parse_directory env_cleanup_fails sample_request "u1"
                   "u1@acme.io" 7 true) in
  r.2 = Raises (HTTPException 500
                  ("500: Internal server error" +:+ newline +:+
                   "Traceback: Traceback (most recent call last): ...")) /\
  status_writes r.1 = [(7, ERROR)].
Proof.
  exact (cleanup_failure_wrapped_twice env_cleanup_fails sample_request "u1"
           "u1@acme.io" 7 sample_config eq_refl eq_refl eq_refl).
Defined.

(** X24: only the generic branch of [analyze_directory] closes a graph
    service.  A run that detected no language, or a language outside the
    generic branch, closes none, although with [cleanup_graph] set it
    constructed one for the cleanup. *)
Theorem cleanup_service_never_closed (env : Env) (repo_details : ParsingRequest)
    (user_id user_email : string) (project_id : Z) (cleanup_graph : bool) :
  let tr := (exec (parse_directory env repo_details user_id user_email
                     project_id cleanup_graph)).1 in
  (forall language,
     detected_language tr = Some language ->
     is_generic_language language = false ->
     List.filter is_service_close tr = []) /\
  (detected_language tr = None -> List.filter is_service_close tr = []).
Proof.
  pose proof (parse_directory_cleanup_paths env repo_details user_id user_email
                project_id cleanup_graph) as H.
  destruct (exec _) as [tr out]. exact (proj2 H).
Qed.

Lemma cleanup_service_never_closed_witness :
  let tr := (exec (parse_directory env_python sample_request "u1"
                     "u1@acme.io" 7 true)).1 in
  In (EvCodeGraphService "bolt://localhost:7687" "neo4j" "secret" (Returns tt)) tr /\
  List.filter is_service_close tr = [].
Proof.
  intros tr. split.
  - vm_compute. tauto.
  - exact (proj1 (cleanup_service_never_closed env_python sample_request "u1"
                    "u1@acme.io" 7 true) "python" eq_refl eq_refl).
Defined.

End OrchestrationProofs.

(** ** The query fan-out *)

Module FanoutProofs.
Import KnowledgeGraphQueryTool.

Section Fanout.

Variable env : Env.
Variable user_id : string.

Lemma build_query_list_str queries p node_ids l tr :
  build_query_list queries (PyStr p) node_ids l tr =
    (l, tr, Returns (map (request_of p node_ids) queries)).
Proof.
  induction queries as [|q qs IH]; cbn [build_query_list map]; [reflexivity|].
  unfold bind, QueryRequest_init, ret in *. rewrite IH. reflexivity.
Qed.

Lemma gather_process_query_result (qs : list QueryRequest) :
  forall l tr,
  exists evs,
    gather (map (process_query env) qs) l tr =
      (l, tr ++ evs, batch_outcome (dispatch_outcomes evs)) /\
    dispatches evs =
      map (fun q => (qr_project_id q, qr_query q, qr_node_ids q)) qs /\
    length (dispatch_outcomes evs) = length qs.
Proof.
  induction qs as [|q qs IH]; intros l tr; cbn [map gather].
  - exists []. rewrite app_nil_r. unfold ret. auto.
  - unfold process_query at 1. unfold bind, external, ret.
    destruct (env_query_vector_index env tr _ _ _) as [ms|e] eqn:E;
      match goal with
      | |- context [gather _ l (tr ++ [?ev])] =>
          destruct (IH l (tr ++ [ev])) as (evs & -> & Hd & Hlen);
          exists (ev :: evs)
      end;
      rewrite <- app_assoc; cbn [app];
      cbn [dispatch_outcomes dispatches flat_map app batch_outcome length];
      fold (dispatch_outcomes evs); fold (dispatches evs);
      rewrite Hd, Hlen;
      (split; [|split; reflexivity]).
    + destruct (batch_outcome (dispatch_outcomes evs)); reflexivity.
    + reflexivity.
Qed.

Lemma batch_outcome_all_returned os :
  forallb returned os = true ->
  batch_outcome os = Returns (map (map to_QueryResponse) (answers os)).
Proof.
  induction os as [|[ms|e] os IH]; cbn; intros H; [reflexivity| |discriminate].
  rewrite (IH H). reflexivity.
Qed.

Lemma batch_outcome_first_failure pre e post :
  forallb returned pre = true ->
  batch_outcome (pre ++ Raises e :: post) = Raises e.
Proof.
  induction pre as [|[ms|e'] pre IH]; cbn; intros H; [reflexivity| |discriminate].
  rewrite (IH H). reflexivity.
Qed.

(** Closes a case of the run that a hypothesis of the goal excludes or that
    ends in an exception. *)
Ltac off_path :=
  repeat split; intros; simplify_eq/=;
  solve [ reflexivity | congruence | eexists; reflexivity ].

Lemma ask_knowledge_graph_query_fanout queries project_id node_ids :
  match exec (ask_knowledge_graph_query env user_id queries project_id node_ids) with
  | (tr, out) =>
      (forall d p,
         head tr = Some (EvGetProjectRepoDetails project_id user_id (Returns (Some d))) ->
         d !! "id" = Some (PyStr p) ->
         tr !! 1%nat = Some (EvInferenceService (Returns tt)) ->
         dispatches tr = map (fun q => (p, q, node_ids)) queries /\
         length (dispatch_outcomes tr) = length queries /\
         out = batch_outcome (dispatch_outcomes tr)) /\
      (forall d,
         head tr = Some (EvGetProjectRepoDetails project_id user_id (Returns (Some d))) ->
         project_truthy (Some d) = true -> d !! "id" = None ->
         tr = [EvGetProjectRepoDetails project_id user_id (Returns (Some d))] /\
         out = Raises (KeyError "id")) /\
      (tr !! 1%nat <> Some (EvInferenceService (Returns tt)) ->
         dispatches tr = [] /\ exists e, out = Raises e)
  end.
Proof.
  unfold exec, ask_knowledge_graph_query, bind, external.
  destruct (env_get_project_repo_details_from_db env [] project_id user_id)
    as [pr|e] eqn:Hp; cbn [app].
  2: { off_path. }
  destruct (project_truthy pr) eqn:Ht; cbn [negb].
  2: { unfold raise. off_path. }
  destruct pr as [d0|]; [|discriminate Ht]. cbn [mbind option_bind].
  destruct (d0 !! "id") as [v|] eqn:Hid.
  2: { unfold raise. off_path. }
  unfold ret.
  pose proof (KnowledgeGraphQueryToolProofs.build_query_list_silent
                queries v node_ids) as Hsilent.
  destruct v as [ | | | |p0].
  5: { rewrite build_query_list_str.
       unfold ask_multiple_knowledge_graph_queries, bind, external.
       destruct (env_InferenceService env _) as [[]|e]; cbn [app].
       2: { off_path. }
       match goal with
       | |- context [gather (map _ ?ql) ?l ?tr] =>
           destruct (gather_process_query_result ql l tr) as (evs & -> & Hd & Hlen)
       end.
       cbn [app]. split; [|split].
       - intros d p Hh Hdp _. simplify_eq/=.
         fold (dispatches evs). fold (dispatch_outcomes evs).
         rewrite Hd, Hlen, !length_map, map_map. repeat split; reflexivity.
       - intros d Hh _ Hnone. simplify_eq/=.
       - intros Hnot. exfalso. apply Hnot. reflexivity. }
  all: match goal with
       | |- context [build_query_list _ _ _ ?l ?tr] =>
           destruct (Hsilent l tr) as ([ql|e] & ->)
       end.
  all: try off_path.
  all: unfold ask_multiple_knowledge_graph_queries, bind, external;
       destruct (env_InferenceService env _) as [[]|e]; cbn [app];
       try off_path.
  all: match goal with
       | |- context [gather (map _ ?ql) ?l ?tr] =>
           destruct (gather_process_query_result ql l tr) as (evs & -> & Hd & Hlen)
       end; cbn [app].
  all: off_path.
Qed.


Lemma run_of_ask queries repo_id node_ids :
  exec (run env user_id queries repo_id node_ids) =
    match exec (ask_knowledge_graph_query env user_id queries repo_id node_ids) with
    | (tr, Returns results) => (tr, Returns (Results results))
    | (tr, Raises e) =>
        (tr, Returns (ErrorDict ("An unexpected error occurred: " +:+ str_exn e)))
    end.
Proof.
  unfold exec, run, try_except, bind, ret.
  destruct (ask_knowledge_graph_query env user_id queries repo_id node_ids tt [])
    as [[l tr] [results|e]]; reflexivity.
Qed.

End Fanout.

(** X17: once the project is resolved to a row with a string id and the
    inference service is constructed, the engine is asked every question of
    the batch, once each and in the order given, always with the id of the
    resolved project (not the reference the caller gave) and the caller's
    node-id filter unchanged, also when some of the questions fail. *)
Theorem fan_out_asks_every_question (env : Env) (user_id : string)
    (queries : list string) (repo_id : string) (node_ids : list string)
    (project : gmap string PyVal) (resolved_id : string) :
  let r := exec (run env user_id queries repo_id node_ids) in
  head r.1 = Some (EvGetProjectRepoDetails repo_id user_id (Returns (Some project))) ->
  project !! "id" = Some (PyStr resolved_id) ->
  r.1 !! 1%nat = Some (EvInferenceService (Returns tt)) ->
  dispatches r.1 = map (fun q => (resolved_id, q, node_ids)) queries.
Proof.
  intros r Hh Hid Hinf. subst r. rewrite run_of_ask in *.
  pose proof (ask_knowledge_graph_query_fanout env user_id queries repo_id node_ids) as H.
  destruct (exec (ask_knowledge_graph_query _ _ _ _ _)) as [tr [rs|e]];
    cbn [fst snd] in *; destruct H as (H & _);
    apply (H project resolved_id Hh Hid Hinf).
Qed.

Lemma fan_out_asks_every_question_witness :
  let r := exec (run env_python "u1" ["q1"; "q2"; "q3"] "acme/tool" ["n1"]) in
  dispatches r.1 = [("p-1", "q1", ["n1"]); ("p-1", "q2", ["n1"]); ("p-1", "q3", ["n1"])].
Proof.
  intros r.
  apply (fan_out_asks_every_question env_python "u1" ["q1"; "q2"; "q3"]
           "acme/tool" ["n1"] sample_project "p-1"); reflexivity.
Defined.

(** X18: the outcome of a batch that reached the engine.  When every
    question was answered, [run] returns one list of responses per
    question, in the order of the questions, each built from the matches of
    that question.  When some question failed, [run] returns the error
    value of the first question that failed, and the answers of all other
    questions are dropped. *)
Theorem fan_out_all_or_nothing (env : Env) (user_id : string)
    (queries : list string) (repo_id : string) (node_ids : list string)
    (project : gmap string PyVal) (resolved_id : string) :
  let r := exec (run env user_id queries repo_id node_ids) in
  head r.1 = Some (EvGetProjectRepoDetails repo_id user_id (Returns (Some project))) ->
  project !! "id" = Some (PyStr resolved_id) ->
  r.1 !! 1%nat = Some (EvInferenceService (Returns tt)) ->
  length (dispatch_outcomes r.1) = length queries /\
  (forallb returned (dispatch_outcomes r.1) = true ->
   r.2 = Returns (Results (map (map to_QueryResponse)
                             (answers (dispatch_outcomes r.1)))) /\
   length (answers (dispatch_outcomes r.1)) = length queries) /\
  (forall pre e post,
     dispatch_outcomes r.1 = pre ++ Raises e :: post ->
     forallb returned pre = true ->
     r.2 = Returns (ErrorDict ("An unexpected error occurred: " +:+ str_exn e))).
Proof.
  intros r Hh Hid Hinf. subst r. rewrite run_of_ask in *.
  pose proof (ask_knowledge_graph_query_fanout env user_id queries repo_id node_ids) as H.
  destruct (exec (ask_knowledge_graph_query _ _ _ _ _)) as [tr out].
  destruct H as (H & _).
  assert (Htr : (let (tr0, o) := (tr, out) in
                 match o with
                 | Returns results => (tr0, Returns (Results results))
                 | Raises e0 =>
                     (tr0, Returns (ErrorDict ("An unexpected error occurred: " +:+
                                               str_exn e0)))
                 end).1 = tr) by (destruct out; reflexivity).
  cbn [fst snd] in *. rewrite Htr in *.
  destruct (H project resolved_id Hh Hid Hinf) as (_ & Hlen & Hout).
  split; [exact Hlen|]. split.
  - intros Hall. rewrite Hout, (batch_outcome_all_returned _ Hall). cbn.
    split; [reflexivity|]. rewrite <- Hlen. clear -Hall.
    induction (dispatch_outcomes tr) as [|[ms|e] os IH]; cbn in *;
      [reflexivity | f_equal; auto | discriminate].
  - intros pre e post Hsplit Hpre.
    rewrite Hout, Hsplit, (batch_outcome_first_failure pre e post Hpre). reflexivity.
Qed.

Lemma fan_out_all_or_nothing_witness :
  let ok := exec (run env_python "u1" ["q1"; "q2"; "q3"] "acme/tool" ["n1"]) in
  let ko := exec (run env_second_question_fails "u1" ["q1"; "q2"; "q3"]
                    "acme/tool" ["n1"]) in
  ok.2 = Returns (Results (map (map to_QueryResponse)
                             [[sample_match]; [sample_match]; [sample_match]])) /\
  length (dispatch_outcomes ko.1) = 3%nat /\
  ko.2 = Returns (ErrorDict "An unexpected error occurred: model unavailable").
Proof.
  intros ok ko.
  destruct (fan_out_all_or_nothing env_python "u1" ["q1"; "q2"; "q3"]
              "acme/tool" ["n1"] sample_project "p-1" eq_refl eq_refl eq_refl)
    as (_ & Hall & _).
  destruct (fan_out_all_or_nothing env_second_question_fails "u1"
              ["q1"; "q2"; "q3"] "acme/tool" ["n1"] sample_project "p-1"
              eq_refl eq_refl eq_refl)
    as (Hlen & _ & Hfirst).
  split; [exact (proj1 (Hall eq_refl))|].
  split; [exact Hlen|].
  exact (Hfirst [Returns [sample_match]] engine_down [Returns [sample_match]]
           eq_refl eq_refl).
Defined.

(** X19: the engine is asked nothing unless the project was resolved and the
    inference service constructed: when the second call of a run is not a
    successful construction of the inference service, no question is
    dispatched and [run] returns an error value.  In particular a project
    row that has no [id] ends the run right after the lookup, with the
    error value of [KeyError]. *)
Theorem unresolved_batch_asks_nothing (env : Env) (user_id : string)
    (queries : list string) (repo_id : string) (node_ids : list string) :
  let r := exec (run env user_id queries repo_id node_ids) in
  (r.1 !! 1%nat <> Some (EvInferenceService (Returns tt)) ->
   dispatches r.1 = [] /\ exists message, r.2 = Returns (ErrorDict message)) /\
  (forall project,
     head r.1 = Some (EvGetProjectRepoDetails repo_id user_id
                        (Returns (Some project))) ->
     project <> ∅ -> project !! "id" = None ->
     r.1 = [EvGetProjectRepoDetails repo_id user_id (Returns (Some project))] /\
     r.2 = Returns (ErrorDict "An unexpected error occurred: 'id'")).
Proof.
  intros r. subst r. rewrite run_of_ask.
  pose proof (ask_knowledge_graph_query_fanout env user_id queries repo_id node_ids) as H.
  destruct (exec (ask_knowledge_graph_query _ _ _ _ _)) as [tr out].
  destruct H as (_ & Hid & Hnot).
  split.
  - intros Hsecond.
    assert (Hsecond' : tr !! 1%nat <> Some (EvInferenceService (Returns tt)))
      by (destruct out; exact Hsecond).
    destruct (Hnot Hsecond') as (Hd & e & ->). cbn. split; [exact Hd|]. eexists. reflexivity.
  - intros project Hh Hne Hnone.
    assert (Hh' : head tr = Some (EvGetProjectRepoDetails repo_id user_id
                                    (Returns (Some project))))
      by (destruct out; exact Hh).
    destruct (Hid project Hh') as (-> & ->); [|exact Hnone|split; reflexivity].
    unfold project_truthy. rewrite bool_decide_eq_false_2; [reflexivity|exact Hne].
Qed.

Lemma unresolved_batch_asks_nothing_witness :
  let no_id := exec (run env_no_id "u1" ["q1"; "q2"] "acme/tool" []) in
  let no_service := exec (run env_no_inference_service "u1" ["q1"; "q2"]
                            "acme/tool" []) in
  (no_id.1 = [EvGetProjectRepoDetails "acme/tool" "u1"
                (Returns (Some (list_to_map [("repo_name", PyStr "acme/tool")])))] /\
   no_id.2 = Returns (ErrorDict "An unexpected error occurred: 'id'")) /\
  (dispatches no_service.1 = [] /\
   exists message, no_service.2 = Returns (ErrorDict message)).
Proof.
  intros no_id no_service.
  destruct (unresolved_batch_asks_nothing env_no_id "u1" ["q1"; "q2"] "acme/tool" [])
    as (_ & Hid).
  destruct (unresolved_batch_asks_nothing env_no_inference_service "u1"
              ["q1"; "q2"] "acme/tool" [])
    as (Hnot & _).
  split.
  - apply (Hid (list_to_map [("repo_name", PyStr "acme/tool")])).
    + reflexivity.
    + intros Habs. apply (f_equal (fun m => m !! "repo_name")) in Habs.
      vm_compute in Habs. discriminate Habs.
    + reflexivity.
  - apply Hnot. vm_compute. discriminate.
Defined.

End FanoutProofs.

(** ** Language detection and the working directory *)

Module UtilityProofs.

Lemma lower_ascii_idempotent (c : ascii) : lower_ascii (lower_ascii c) = lower_ascii c.
Proof. destruct c as [[] [] [] [] [] [] [] []]; reflexivity. Qed.

Lemma lower_idempotent (s : string) : lower (lower s) = lower s.
Proof.
  induction s as [|c s IH]; cbn [lower]; [reflexivity|].
  rewrite lower_ascii_idempotent, IH. reflexivity.
Qed.

(** The scan of [max]: [pre] was beaten by [best], [mid] did not beat it. *)
Lemma max_by_value_scan (rest : list (string * Z)) :
  forall (pre mid : list (string * Z)) (best : string * Z),
    Forall (fun kv => snd kv < snd best) pre ->
    Forall (fun kv => snd kv <= snd best) mid ->
    exists pre' v post,
      pre ++ best :: mid ++ rest = pre' ++ (max_by_value best rest, v) :: post /\
      Forall (fun kv => snd kv < v) pre' /\
      Forall (fun kv => snd kv <= v) post.
Proof.
  induction rest as [|kv rest IH]; intros pre mid best Hpre Hmid; cbn [max_by_value].
  - exists pre, (snd best), mid. rewrite app_nil_r. destruct best. cbn. auto.
  - destruct (Z.ltb_spec (snd best) (snd kv)) as [Hlt|Hge].
    + destruct (IH (pre ++ best :: mid) [] kv) as (pre' & v & post & Heq & H1 & H2).
      { apply Forall_app. split.
        - eapply Forall_impl; [exact Hpre|]. cbn. intros; lia.
        - constructor; [exact Hlt|].
          eapply Forall_impl; [exact Hmid|]. cbn. intros; lia. }
      { constructor. }
      exists pre', v, post. rewrite <- app_assoc in Heq. cbn [app] in Heq. auto.
    + destruct (IH pre (mid ++ [kv]) best Hpre) as (pre' & v & post & Heq & H1 & H2).
      { apply Forall_app. split; [exact Hmid|]. constructor; [lia|constructor]. }
      exists pre', v, post. rewrite <- app_assoc in Heq. cbn [app] in Heq. auto.
Qed.

(** X20: [max(languages, key=languages.get)] answers the first key, in
    insertion order, whose count no other key exceeds: every entry before
    it counts strictly less and every entry after it at most as much.  On
    an empty dictionary it raises [ValueError].  It calls no collaborator
    and leaves the local variables alone. *)
Theorem max_key_first_largest {L} (languages : list (string * Z)) (l : L) (tr : Trace) :
  (languages = [] /\
   max_key languages l tr = (l, tr, Raises (ValueError "max() arg is an empty sequence"))) \/
  (exists pre k v post,
     languages = pre ++ (k, v) :: post /\
     Forall (fun kv => snd kv < v) pre /\
     Forall (fun kv => snd kv <= v) post /\
     max_key languages l tr = (l, tr, Returns k)).
Proof.
  destruct languages as [|kv rest]; [left; split; reflexivity|right].
  destruct (max_by_value_scan rest [] [] kv) as (pre & v & post & Heq & H1 & H2);
    [constructor|constructor|].
  exists pre, (max_by_value kv rest), v, post. cbn [app] in Heq. auto.
Qed.

Section Detection.

Variable env : Env.

(** X21: for a remote repository the detected language is the lower-cased
    first key of [get_languages()] with the largest count, so it is its
    own lower-casing; a repository that lists no language makes the
    detection raise [ValueError]. *)
Theorem remote_language_lowercased {L} (repo : RepoHandle) (extracted_dir : string)
    (l : L) (tr : Trace) (languages : list (string * Z))
    (Hremote : isinstance_Repo repo = false)
    (Hlanguages : env_get_languages env tr repo = Returns languages) :
  let r := ParsingService.detect_language env repo extracted_dir l tr in
  r.1.2 = tr ++ [EvGetLanguages repo (Returns languages)] /\
  (languages = [] ->
   r.2 = Raises (ValueError "max() arg is an empty sequence")) /\
  (languages <> [] ->
   exists pre k v post,
     languages = pre ++ (k, v) :: post /\
     Forall (fun kv => snd kv < v) pre /\
     Forall (fun kv => snd kv <= v) post /\
     r.2 = Returns (lower k) /\
     lower (lower k) = lower k).
Proof.
  unfold ParsingService.detect_language. rewrite Hremote.
  unfold bind, external, ret. rewrite Hlanguages.
  destruct (max_key_first_largest languages l (tr ++ [EvGetLanguages repo (Returns languages)]))
    as [[-> Hmax]|(pre & k & v & post & Heq & H1 & H2 & Hmax)]; rewrite Hmax; cbn.
  - split; [reflexivity|]. split; [reflexivity|]. intros []. reflexivity.
  - split; [reflexivity|]. split.
    + intros ->. destruct pre; discriminate.
    + intros _. exists pre, k, v, post. repeat split; auto using lower_idempotent.
Qed.

End Detection.

Lemma remote_language_lowercased_witness :
  let r := ParsingService.detect_language env_remote (RemoteRepo "acme/tool")
             work_dir tt [] in
  r.2 = Returns "python".
Proof.
  intros r.
  destruct (remote_language_lowercased env_remote (RemoteRepo "acme/tool")
              work_dir tt [] [("HTML", 10); ("Python", 40); ("Go", 40)]
              eq_refl eq_refl) as (_ & _ & Hmax).
  destruct (Hmax ltac:(discriminate)) as (pre & k & v & post & _ & _ & _ & Hr & _).
  reflexivity.
Defined.

Section Cwd.

Import ChangeDir.

Variable is_dir : string -> bool.

(** X22: [with self.change_dir(path)] runs its body with [path] as the
    working directory and puts the directory it started from back when the
    body is left, whether the body returns or raises and whatever
    directory the body moved to; the body's outcome is the outcome of the
    block.  When [path] is no directory the body does not run. *)
Theorem change_dir_restores {A} (path old_dir : string) (body : M string A) (tr : Trace)
    (Hold : is_dir old_dir = true) :
  (is_dir path = true ->
   change_dir is_dir path body old_dir tr
   = (old_dir, (body path tr).1.2, (body path tr).2)) /\
  (is_dir path = false ->
   exists e, change_dir is_dir path body old_dir tr = (old_dir, tr, Raises e)).
Proof.
  unfold change_dir, getcwd, chdir, bind, get_locals, try_finally.
  split; intros Hpath; rewrite Hpath.
  - unfold set_locals. destruct (body path tr) as [[l' tr'] out]. cbn.
    rewrite Hold. destruct out; reflexivity.
  - eexists. reflexivity.
Qed.

End Cwd.

Lemma change_dir_restores_witness :
  let is_dir := fun path => negb (String.eqb path "/missing") in
  let body : M string unit :=
    do _ <- ChangeDir.chdir is_dir "/tmp"; raise (ValueError "no manifest") in
  ChangeDir.change_dir is_dir "/srv/projects/acme" body "/home/app" []
  = ("/home/app", [], Raises (ValueError "no manifest")) /\
  exists e,
    ChangeDir.change_dir is_dir "/missing" body "/home/app" []
    = ("/home/app", [], Raises e).
Proof.
  intros is_dir body.
  destruct (change_dir_restores is_dir "/srv/projects/acme" "/home/app" body []
              eq_refl) as (Hthere & _).
  destruct (change_dir_restores is_dir "/missing" "/home/app" body []
              eq_refl) as (_ & Hmissing).
  split; [exact (Hthere eq_refl) | exact (Hmissing eq_refl)].
Defined.

End UtilityProofs.
